(** * NewsPortal: the article views, the cache glue and the account views

    A shallow embedding of [news/utils.py], [news/views.py] and
    [news/views_auth.py].  A view is a state transformer over the
    database tables, the page cache, the mail outbox and the task queue;
    an exception raised half-way keeps the writes made before it, as the
    project runs without per-request transactions. *)

From Stdlib Require Import ZArith String Ascii DecimalString DecimalNat.
From stdpp Require Import gmap strings list fin_maps.

Local Open Scope string_scope.
Local Open Scope Z_scope.

(** ** Python values rendered by f-strings *)

(** [str(n)] for a non-negative [int]. *)
Definition str_nat (n : nat) : string :=
  NilZero.string_of_uint (Nat.to_uint n).

(** [str(z)] for an [int]. *)
Definition str_int (z : Z) : string :=
  NilZero.string_of_int (Z.to_int z).

(** ["%0<width>d" % z] for a non-negative [z]. *)
Definition zero_pad (width : nat) (z : Z) : string :=
  let digits := str_int z in
  String.concat "" (replicate (width - String.length digits)%nat "0") ++ digits.

(** An aware datetime in UTC ([USE_TZ = True], [TIME_ZONE = 'UTC']) is
    the number of microseconds since 1970-01-01 00:00:00 UTC. *)
Abbreviation datetime := Z (only parsing).

Definition microseconds_per_second : Z := 1000000.
Definition seconds_per_day : Z := 86400.

(** [timezone.timedelta(days=n)] *)
Definition timedelta_days (n : Z) : Z :=
  n * seconds_per_day * microseconds_per_second.

(** [timedelta(seconds=n)], the unit of cache timeouts. *)
Definition timedelta_seconds (n : Z) : Z := n * microseconds_per_second.

(** Proleptic Gregorian date of a day number counted from 1970-01-01. *)
Definition civil_from_days (days : Z) : Z * Z * Z :=
  let z := days + 719468 in
  let era := z / 146097 in
  let doe := z - era * 146097 in
  let yoe := (doe - doe / 1460 + doe / 36524 - doe / 146096) / 365 in
  let doy := doe - (365 * yoe + yoe / 4 - yoe / 100) in
  let mp := (5 * doy + 2) / 153 in
  let d := doy - (153 * mp + 2) / 5 + 1 in
  let m := if mp <? 10 then mp + 3 else mp - 9 in
  let y := yoe + era * 400 + (if m <=? 2 then 1 else 0) in
  (y, m, d).

(** [str(dt)], that is [dt.isoformat(sep=' ')], of an aware UTC datetime:
    the fraction is printed only when the microsecond field is not 0. *)
Definition str_datetime (t : datetime) : string :=
  let us := t mod microseconds_per_second in
  let s := t / microseconds_per_second in
  let sod := s mod seconds_per_day in
  let '(y, m, d) := civil_from_days (s / seconds_per_day) in
  zero_pad 4 y ++ "-" ++ zero_pad 2 m ++ "-" ++ zero_pad 2 d ++ " "
  ++ zero_pad 2 (sod / 3600) ++ ":" ++ zero_pad 2 (sod mod 3600 / 60)
  ++ ":" ++ zero_pad 2 (sod mod 60)
  ++ (if us =? 0 then "" else "." ++ zero_pad 6 us)
  ++ "+00:00".

(** ** news/utils.py *)

(** [get_article_cache_key]: [f"article_{article_id}_{publication_date}"]. *)
Definition get_article_cache_key (article_id : nat) (publication_date : datetime)
  : string :=
  "article_" ++ str_nat article_id ++ "_" ++ str_datetime publication_date.

(** ** Models *)

(** Modelled from the spec: [news/models.py] is not among the sources.
    The rows carry the columns that the views and the filter set read or
    write; the primary key of a row is its key in the table. *)
Record User := mkUser {
  username : string;
  email : string;
  is_active : bool;
  is_superuser : bool;
}.

(** Modelled from the spec: [Profile] of [news/models.py], one row per
    user, reached as [user.profile] and [profile.user]. *)
Record Profile := mkProfile { profile_user : nat }.

(** Modelled from the spec: [Category] of [news/models.py]; its
    [subscribers] relation is the table [news_category_subscribers]. *)
Record Category := mkCategory { category_name : string }.

(** Modelled from the spec: [Article] of [news/models.py]. *)
Record Article := mkArticle {
  title : string;
  content : string;
  publication_date : datetime;
  article_type : bool;
  category : nat;
  author_profile : nat;
  rating : option nat;
}.

(** ** Requests and responses *)

(** [request.user] as the authentication middleware sets it: the
    anonymous user, or the row of the logged-in user with its key. *)
Inductive RequestUser :=
| AnonymousUser
| LoggedIn (pk : nat) (u : User).

(** [HttpOther] stands for a method that the views have no handler for. *)
Inductive HttpMethod := HttpGet | HttpPost | HttpOther.

Record HttpRequest := mkRequest {
  method : HttpMethod;
  path : string;
  user : RequestUser;
  GET : gmap string string;
  POST : gmap string string;
}.

(** What a view puts in a template context. *)
Inductive CtxValue :=
| CStr (s : string)
| CBool (b : bool)
| CArticle (pk : nat) (a : Article)
| CBadRequest (body : string)
| CCategories (all : gmap nat Category)
| CForm (data : option (gmap string string)).

Inductive HttpResponse :=
| Rendered (request : HttpRequest) (template_name : string)
    (context : list (string * CtxValue))
| HttpResponseRedirect (to : string) (kwargs : list (string * nat))
| RedirectToLogin (next login_url : string)
| HttpResponseBadRequest (body : string)
| HttpResponseNotAllowed.

(** ** Mail and background tasks *)

(** Modelled from the spec: [news/email_utils.py] is not among the
    sources.  The subject and body that a generator of
    [EmailContentBuilder] returns are kept as the call that made them. *)
Inductive EmailContent :=
| generate_notification_email (article_id : nat) (article : Article)
    (subscriber_id : nat) (subscriber : User)
| generate_subscription_email (user_id : nat) (u : User)
    (category_id : nat) (c : Category)
| generate_limit_email (user_id : nat) (u : User) (post_limit : nat)
    (group_name : string)
| generate_welcome_email (user_id : nat) (u : User) (variant : Z).

Record EmailMessage := mkEmail {
  email_content : EmailContent;
  recipient_list : list string;
  html_message : bool;
}.

(** Modelled from the spec: the task [send_new_article_notification] of
    [news/tasks.py], as a message on the broker queue. *)
Inductive Task :=
| send_new_article_notification (article_id : nat).

(** ** The state a view runs in *)

Record World := mkWorld {
  auth_user : gmap nat User;
  auth_group : gset string;
  auth_user_groups : gset (nat * string);
  news_profile : gmap nat Profile;
  news_category : gmap nat Category;
  news_category_subscribers : gset (nat * nat);
  news_article : gmap nat Article;
  cache : gmap string (HttpResponse * Z);
  outbox : list EmailMessage;
  celery_queue : list Task;
  clock : datetime;
  render_count : nat;
}.

Definition set_auth_user (f : gmap nat User → gmap nat User) (w : World) : World :=
  mkWorld (f (auth_user w)) (auth_group w) (auth_user_groups w) (news_profile w)
    (news_category w) (news_category_subscribers w) (news_article w) (cache w)
    (outbox w) (celery_queue w) (clock w) (render_count w).

Definition set_auth_user_groups (f : gset (nat * string) → gset (nat * string))
  (w : World) : World :=
  mkWorld (auth_user w) (auth_group w) (f (auth_user_groups w)) (news_profile w)
    (news_category w) (news_category_subscribers w) (news_article w) (cache w)
    (outbox w) (celery_queue w) (clock w) (render_count w).

Definition set_subscribers (f : gset (nat * nat) → gset (nat * nat))
  (w : World) : World :=
  mkWorld (auth_user w) (auth_group w) (auth_user_groups w) (news_profile w)
    (news_category w) (f (news_category_subscribers w)) (news_article w) (cache w)
    (outbox w) (celery_queue w) (clock w) (render_count w).

Definition set_news_article (f : gmap nat Article → gmap nat Article)
  (w : World) : World :=
  mkWorld (auth_user w) (auth_group w) (auth_user_groups w) (news_profile w)
    (news_category w) (news_category_subscribers w) (f (news_article w)) (cache w)
    (outbox w) (celery_queue w) (clock w) (render_count w).

Definition set_cache
  (f : gmap string (HttpResponse * Z) → gmap string (HttpResponse * Z))
  (w : World) : World :=
  mkWorld (auth_user w) (auth_group w) (auth_user_groups w) (news_profile w)
    (news_category w) (news_category_subscribers w) (news_article w) (f (cache w))
    (outbox w) (celery_queue w) (clock w) (render_count w).

Definition set_outbox (f : list EmailMessage → list EmailMessage) (w : World) : World :=
  mkWorld (auth_user w) (auth_group w) (auth_user_groups w) (news_profile w)
    (news_category w) (news_category_subscribers w) (news_article w) (cache w)
    (f (outbox w)) (celery_queue w) (clock w) (render_count w).

Definition set_celery_queue (f : list Task → list Task) (w : World) : World :=
  mkWorld (auth_user w) (auth_group w) (auth_user_groups w) (news_profile w)
    (news_category w) (news_category_subscribers w) (news_article w) (cache w)
    (outbox w) (f (celery_queue w)) (clock w) (render_count w).

Definition set_render_count (f : nat → nat) (w : World) : World :=
  mkWorld (auth_user w) (auth_group w) (auth_user_groups w) (news_profile w)
    (news_category w) (news_category_subscribers w) (news_article w) (cache w)
    (outbox w) (celery_queue w) (clock w) (f (render_count w)).

(** ** Views as state transformers that may raise *)

Inductive Exception :=
| Http404
| AttributeError
| ValueError
| DoesNotExist
| PermissionDenied.

Inductive Result (A : Type) :=
| Ok (a : A)
| Raise (e : Exception).
Arguments Ok {A} a.
Arguments Raise {A} e.

Definition View (A : Type) : Type := World → World * Result A.

Definition ret {A} (a : A) : View A := λ w, (w, Ok a).
Definition raise {A} (e : Exception) : View A := λ w, (w, Raise e).
Definition bind {A B} (m : View A) (k : A → View B) : View B :=
  λ w, match m w with
       | (w', Ok a) => k a w'
       | (w', Raise e) => (w', Raise e)
       end.
Definition gets {A} (f : World → A) : View A := λ w, (w, Ok (f w)).
Definition modify (f : World → World) : View unit := λ w, (f w, Ok tt).

Notation "x <- m ;; k" := (bind m (λ x, k))
  (at level 100, m at next level, right associativity,
   format "'[v' x  <-  m  ;;  '/' k ']'").
Notation "m ;;; k" := (bind m (λ _, k))
  (at level 100, right associativity,
   format "'[v' m  ;;;  '/' k ']'").

(** ** Framework calls used by the views *)

(** Truth value of [request.GET.get(k)] / [request.POST.get(k)]: [None]
    and the empty string are false. *)
Definition truthy (v : option string) : bool :=
  match v with
  | Some s => negb (String.eqb s "")
  | None => false
  end.

(** [timezone.now()] *)
Definition timezone_now : View datetime := gets clock.

(** [render(request, template_name, context)]; every call is counted. *)
Definition render (request : HttpRequest) (template_name : string)
  (context : list (string * CtxValue)) : View HttpResponse :=
  modify (set_render_count S) ;;;
  ret (Rendered request template_name context).

(** [redirect(to, **kwargs)] *)
Definition redirect (to : string) (kwargs : list (string * nat)) : HttpResponse :=
  HttpResponseRedirect to kwargs.

(** [get_object_or_404(Model, pk=pk, **filters)] on one table. *)
Definition get_object_or_404 {A} (table : World → gmap nat A) (pk : nat)
  (filters : A → bool) : View A :=
  row <- gets (λ w, table w !! pk) ;;
  match row with
  | Some a => if filters a then ret a else raise Http404
  | None => raise Http404
  end.

(** ** Python's [int()] on a form value

    The model field converts a looked-up value with [int(value)].  For
    text, [int] skips white space at both ends, reads an optional sign
    and then decimal digits, where single underscores may stand between
    digits; anything else raises [ValueError]. *)

(** The characters that [int] skips at the ends: tab, line feed,
    vertical tab, form feed, carriage return, the four separators
    U+001C to U+001F, and the space. *)
Definition is_space (c : ascii) : bool :=
  let n := nat_of_ascii c in
  ((9 <=? n) && (n <=? 13) || (28 <=? n) && (n <=? 32))%nat.

Fixpoint only_spaces (s : string) : bool :=
  match s with
  | EmptyString => true
  | String c rest => is_space c && only_spaces rest
  end.

Fixpoint lstrip (s : string) : string :=
  match s with
  | EmptyString => EmptyString
  | String c rest => if is_space c then lstrip rest else s
  end.

(** Where the scan of the digits stands: nothing read yet, a digit read
    last, or an underscore read last. *)
Inductive ScanState := at_start | after_digit | after_underscore.

(** The digits, up to the end of the text or to white space that runs to
    the end; an underscore must follow a digit and be followed by one. *)
Fixpoint digits_value (acc : nat) (prev : ScanState) (s : string) : option nat :=
  match s with
  | EmptyString =>
      match prev with
      | after_digit => Some acc
      | _ => None
      end
  | String c rest =>
      let n := nat_of_ascii c in
      if ((48 <=? n) && (n <=? 57))%nat
      then digits_value (10 * acc + (n - 48))%nat after_digit rest
      else
        match prev with
        | after_digit =>
            if Ascii.eqb c "_" then digits_value acc after_underscore rest
            else if is_space c && only_spaces rest then Some acc
            else None
        | _ => None
        end
  end.

(** [int(s)], [None] for [ValueError]. *)
Definition python_int (s : string) : option Z :=
  match lstrip s with
  | String c rest =>
      if Ascii.eqb c "+" then Z.of_nat <$> digits_value 0 at_start rest
      else if Ascii.eqb c "-"
           then (λ n, - Z.of_nat n) <$> digits_value 0 at_start rest
           else Z.of_nat <$> digits_value 0 at_start (String c rest)
  | EmptyString => None
  end.

(** The key that a form value denotes: keys are not negative. *)
Definition parse_pk (s : string) : option nat :=
  match python_int s with
  | Some z => if 0 <=? z then Some (Z.to_nat z) else None
  | None => None
  end.

(** [get_object_or_404(Model, id=value)] with [value] taken from the
    request: [None] matches no row; a number is looked up, and a negative
    one matches no row; text that is no number makes the field
    conversion raise [ValueError]. *)
Definition get_object_or_404_by_param {A} (table : World → gmap nat A)
  (value : option string) : View (nat * A) :=
  match value with
  | None => raise Http404
  | Some s =>
      match parse_pk s with
      | Some pk => a <- get_object_or_404 table pk (λ _, true) ;; ret (pk, a)
      | None =>
          match python_int s with
          | Some _ => raise Http404
          | None => raise ValueError
          end
      end
  end.

(** Modelled from the spec: the backend [news.custom_cache] named by
    [CACHES] is not among the sources; [cache.get], [cache.set] and
    [cache.delete] follow the cache API of the framework.  An entry is
    kept with its expiry time and is held until that time has passed. *)
Definition cached_at (w : World) (key : string) : option HttpResponse :=
  match cache w !! key with
  | Some (value, expiry) => if clock w <=? expiry then Some value else None
  | None => None
  end.

Definition cache_get (key : string) : View (option HttpResponse) :=
  gets (λ w, cached_at w key).

Definition cache_set (key : string) (value : HttpResponse) (timeout : Z)
  : View unit :=
  modify (λ w, set_cache <[key := (value, clock w + timedelta_seconds timeout)]> w).

Definition cache_delete (key : string) : View unit :=
  modify (set_cache (delete key)).

(** Modelled from the spec: [send_custom_email] of [news/email_utils.py]
    hands one message with the given recipients to the mail backend. *)
Definition send_custom_email (c : EmailContent) (recipients : list string)
  (html : bool) : View unit :=
  modify (set_outbox (λ sent, (sent ++ [mkEmail c recipients html])%list)).

(** [task.delay(...)]: one message put on the broker queue. *)
Definition delay (t : Task) : View unit :=
  modify (set_celery_queue (λ q, (q ++ [t])%list)).

(** [user.groups.filter(name=group_name).exists()] *)
Definition groups_filter_exists (w : World) (u : RequestUser)
  (group_name : string) : bool :=
  match u with
  | AnonymousUser => false
  | LoggedIn pk _ =>
      bool_decide ((pk, group_name) ∈ auth_user_groups w ∧ group_name ∈ auth_group w)
  end.

(** [user.profile]: the key of the profile row of the user. *)
Definition user_profile (u : RequestUser) : View nat :=
  match u with
  | AnonymousUser => raise AttributeError
  | LoggedIn pk _ =>
      rows <- gets (λ w, map_to_list (news_profile w)) ;;
      match List.find (λ r, Nat.eqb (profile_user (snd r)) pk) rows with
      | Some r => ret (fst r)
      | None => raise DoesNotExist
      end
  end.

(** [category.subscribers.all()]: the user rows joined to the relation. *)
Definition subscribers_all (w : World) (category_id : nat) : list (nat * User) :=
  omap (λ r : nat * nat,
          if Nat.eqb (fst r) category_id
          then (λ u, (snd r, u)) <$> auth_user w !! snd r
          else None)
       (elements (news_category_subscribers w)).

(** Following a foreign key from a loaded row to the row it names. *)
Definition related {A} (table : World → gmap nat A) (pk : nat) : View A :=
  row <- gets (λ w, table w !! pk) ;;
  match row with
  | Some a => ret a
  | None => raise DoesNotExist
  end.

(** [Model.objects.create(...)]: the row is stored under a key that no
    row of the table uses, the least one above all keys in use. *)
Definition next_pk {A} (table : gmap nat A) : nat :=
  S (max_list (elements (dom table))).

(** [for x in xs: body(x)] *)
Fixpoint for_each {A} (xs : list A) (body : A → View unit) : View unit :=
  match xs with
  | [] => ret tt
  | x :: rest => body x ;;; for_each rest body
  end.

(** [settings.LOGIN_URL] *)
Definition LOGIN_URL : string := "/login/".

(** Values that [settings.py] reads from the process environment. *)
Class Environment := { WELCOME_EMAIL_VARIANT : Z }.

(** ** news/views.py: BaseArticleView *)

(** What [get_article] hands back: a loaded article, or the
    [HttpResponseBadRequest] object it built. *)
Inductive ArticleOrResponse :=
| an_article (pk : nat) (a : Article)
| a_bad_request (body : string).

(** Reading an attribute of the model instance; the response object has
    none of them. *)
Definition attr {A} (f : nat → Article → A) (obj : ArticleOrResponse) : View A :=
  match obj with
  | an_article pk a => ret (f pk a)
  | a_bad_request _ => raise AttributeError
  end.

Definition ctx_of (obj : ArticleOrResponse) : CtxValue :=
  match obj with
  | an_article pk a => CArticle pk a
  | a_bad_request body => CBadRequest body
  end.

Definition get_article (pk : nat) (type_param : option string)
  : View ArticleOrResponse :=
  if negb (bool_decide (type_param ∈ [Some "0"; Some "1"])) then
    ret (a_bad_request "Invalid article_type")
  else
    let type_value := bool_decide (type_param = Some "1") in
    a <- get_object_or_404 news_article pk
           (λ a, Bool.eqb (article_type a) type_value) ;;
    ret (an_article pk a).

Definition clear_article_cache (article : ArticleOrResponse) : View unit :=
  id <- attr (λ pk _, pk) article ;;
  date <- attr (λ _ a, publication_date a) article ;;
  cache_delete (get_article_cache_key id date).

Definition get_article_from_cache (article_id : nat) (date : datetime)
  : View (option HttpResponse) :=
  cache_get (get_article_cache_key article_id date).

Definition set_article_to_cache (pk : nat) (a : Article)
  (response : HttpResponse) (timeout : Z) : View unit :=
  cache_set (get_article_cache_key pk (publication_date a)) response timeout.

Definition send_article_notification (pk : nat) (a : Article)
  (use_celery : bool) : View unit :=
  if use_celery then
    delay (send_new_article_notification pk)
  else
    _ <- related news_category (category a) ;;
    subscribers <- gets (λ w, subscribers_all w (category a)) ;;
    for_each subscribers (λ s,
      send_custom_email (generate_notification_email pk a (fst s) (snd s))
        [email (snd s)] true).

(** ** Access control in front of the handlers *)

Definition is_authenticated (u : RequestUser) : bool :=
  match u with
  | LoggedIn _ _ => true
  | AnonymousUser => false
  end.

Definition user_is_superuser (u : RequestUser) : bool :=
  match u with
  | LoggedIn _ u => is_superuser u
  | AnonymousUser => false
  end.

(** [test_func] of the create, edit and delete views. *)
Definition test_func (w : World) (request : HttpRequest) : bool :=
  user_is_superuser (user request)
  || groups_filter_exists w (user request) "authors".

(** Modelled from the spec: [is_author_or_superuser] of [news/mixins.py]
    is not among the sources; it accepts authors and superusers, as
    [test_func] does. *)
Definition is_author_or_superuser (w : World) (u : RequestUser) : bool :=
  user_is_superuser u || groups_filter_exists w u "authors".

(** [AccessMixin.handle_no_permission] *)
Definition handle_no_permission (request : HttpRequest) : View HttpResponse :=
  if is_authenticated (user request) then raise PermissionDenied
  else ret (RedirectToLogin (path request) LOGIN_URL).

(** [LoginRequiredMixin] and [UserPassesTestMixin] in front of
    [View.dispatch]. *)
Definition dispatch_if_allowed (request : HttpRequest)
  (handler : View HttpResponse) : View HttpResponse :=
  if negb (is_authenticated (user request)) then handle_no_permission request
  else
    allowed <- gets (λ w, test_func w request) ;;
    if allowed then handler else handle_no_permission request.

(** [View.dispatch]: the handler named after the request method. *)
Definition dispatch (request : HttpRequest)
  (get post : option (View HttpResponse)) : View HttpResponse :=
  let handler := match method request with
                 | HttpGet => get
                 | HttpPost => post
                 | HttpOther => None
                 end in
  default (ret HttpResponseNotAllowed) handler.

(** ** news/views.py: the article views *)

(** [if cached_response:] tests the value that [cache.get] returned; a
    response object is always true, [None] is false. *)
Definition ArticleDetailView_get (request : HttpRequest) (id : nat)
  : View HttpResponse :=
  article <- get_object_or_404 news_article id (λ _, true) ;;
  cached_response <- get_article_from_cache id (publication_date article) ;;
  match cached_response with
  | Some response => ret response
  | None =>
      profile <- related news_profile (author_profile article) ;;
      _ <- related auth_user (profile_user profile) ;;
      let user_is_author :=
        match user request with
        | LoggedIn pk _ => Nat.eqb pk (profile_user profile)
        | AnonymousUser => false
        end in
      response <- render request "news/article_detail.html"
                    [("article", CArticle id article);
                     ("user_is_author", CBool user_is_author)] ;;
      set_article_to_cache id article response 300 ;;;
      ret response
  end.

Definition ArticleDetailView (request : HttpRequest) (id : nat) : View HttpResponse :=
  dispatch request (Some (ArticleDetailView_get request id)) None.

Definition ArticleCreateView_get (request : HttpRequest) : View HttpResponse :=
  let type_param := GET request !! "article_type" in
  if negb (bool_decide (type_param ∈ [Some "news"; Some "article"])) then
    ret (HttpResponseBadRequest "Invalid article_type")
  else
    let template_name :=
      if bool_decide (type_param = Some "news") then "news/create_news.html"
      else "news/articles/create_article.html" in
    categories <- gets news_category ;;
    render request template_name [("categories", CCategories categories)].

Definition get_category_by_id (category_id : string) : View (nat * Category) :=
  get_object_or_404_by_param news_category (Some category_id).

Definition ArticleCreateView_post (request : HttpRequest) : View HttpResponse :=
  let title_param := POST request !! "title" in
  let content_param := POST request !! "content" in
  let category_id := POST request !! "category" in
  let type_param := GET request !! "article_type" in
  if negb (truthy title_param) || negb (truthy content_param)
     || negb (truthy category_id) then
    categories <- gets news_category ;;
    render request "news/create_news.html"
      [("error", CStr "Все поля должны быть заполнены.");
       ("categories", CCategories categories)]
  else
    cat <- get_category_by_id (default "" category_id) ;;
    profile <- user_profile (user request) ;;
    now <- timezone_now ;;
    let article :=
      mkArticle (default "" title_param) (default "" content_param) now
        (bool_decide (type_param = Some "news")) (fst cat) profile None in
    pk <- gets (λ w, next_pk (news_article w)) ;;
    modify (set_news_article <[pk := article]>) ;;;
    send_article_notification pk article true ;;;
    ret (redirect "article_list" []).

Definition ArticleCreateView (request : HttpRequest) : View HttpResponse :=
  dispatch_if_allowed request
    (dispatch request (Some (ArticleCreateView_get request))
       (Some (ArticleCreateView_post request))).

Definition ArticleEditView_get (request : HttpRequest) (pk : nat)
  : View HttpResponse :=
  article <- get_article pk (GET request !! "article_type") ;;
  is_news <- attr (λ _ a, article_type a) article ;;
  render request
    (if is_news : bool then "news/edit_news.html"
     else "news/articles/edit_article.html")
    [("article", ctx_of article)].

Definition ArticleEditView_post (request : HttpRequest) (pk : nat)
  : View HttpResponse :=
  article <- get_article pk (GET request !! "article_type") ;;
  let title_param := POST request !! "title" in
  let content_param := POST request !! "content" in
  if negb (truthy title_param) || negb (truthy content_param) then
    render request "news/edit_news.html"
      [("error", CStr "Все поля должны быть заполнены.");
       ("article", ctx_of article)]
  else
    clear_article_cache article ;;;
    match article with
    | an_article id a =>
        now <- timezone_now ;;
        modify (set_news_article
                  <[id := mkArticle (default "" title_param)
                            (default "" content_param) now (article_type a)
                            (category a) (author_profile a) (rating a)]>) ;;;
        ret (redirect "article_detail" [("id", id)])
    | a_bad_request _ => raise AttributeError
    end.

Definition ArticleEditView (request : HttpRequest) (pk : nat) : View HttpResponse :=
  dispatch_if_allowed request
    (dispatch request (Some (ArticleEditView_get request pk))
       (Some (ArticleEditView_post request pk))).

Definition ArticleDeleteView_get (request : HttpRequest) (pk : nat)
  : View HttpResponse :=
  article <- get_article pk (GET request !! "article_type") ;;
  is_news <- attr (λ _ a, article_type a) article ;;
  render request
    (if is_news : bool then "news/delete_news.html"
     else "news/articles/delete_article.html")
    [("item", ctx_of article)].

Definition ArticleDeleteView_post (request : HttpRequest) (pk : nat)
  : View HttpResponse :=
  article <- get_article pk (GET request !! "article_type") ;;
  clear_article_cache article ;;;
  id <- attr (λ id _, id) article ;;
  modify (set_news_article (delete id)) ;;;
  ret (redirect "article_list" []).

Definition ArticleDeleteView (request : HttpRequest) (pk : nat) : View HttpResponse :=
  dispatch_if_allowed request
    (dispatch request (Some (ArticleDeleteView_get request pk))
       (Some (ArticleDeleteView_post request pk))).

(** ** news/views.py: the function views *)

(** [@login_required]: anonymous requests are sent to the login page.
    [@csrf_protect] adds nothing here: [CsrfViewMiddleware] is installed
    for the whole site, a request that reaches a view has passed it, and
    the decorator skips a request that the middleware has processed. *)
Definition login_required (request : HttpRequest)
  (view : nat → User → View HttpResponse) : View HttpResponse :=
  match user request with
  | LoggedIn pk u => view pk u
  | AnonymousUser => ret (RedirectToLogin (path request) LOGIN_URL)
  end.

Definition subscribe_to_category_body (request : HttpRequest) (category_id : nat)
  (user_id : nat) (u : User) : View HttpResponse :=
  cat <- get_object_or_404 news_category category_id (λ _, true) ;;
  found <- get_object_or_404_by_param news_article (POST request !! "article_id") ;;
  subscribers <- gets (λ w, subscribers_all w category_id) ;;
  (if negb (bool_decide (user_id ∈ (fst <$> subscribers))) then
     modify (set_subscribers (λ rel, {[ (category_id, user_id) ]} ∪ rel)) ;;;
     clear_article_cache (an_article (fst found) (snd found)) ;;;
     send_custom_email
       (generate_subscription_email user_id u category_id cat) [email u] false
   else ret tt) ;;;
  ret (redirect "article_detail" [("id", fst found)]).

Definition subscribe_to_category (request : HttpRequest) (category_id : nat)
  : View HttpResponse :=
  login_required request (subscribe_to_category_body request category_id).

(** [@user_passes_test(test, login_url=...)] *)
Definition user_passes_test (test : World → RequestUser → bool)
  (login_url : string) (request : HttpRequest) (view : View HttpResponse)
  : View HttpResponse :=
  passes <- gets (λ w, test w (user request)) ;;
  if passes then view else ret (RedirectToLogin (path request) login_url).

(** [Article.objects.filter(author_profile=profile,
    publication_date__gte=time_threshold).count()] *)
Definition posts_since (w : World) (profile : nat) (time_threshold : datetime)
  : nat :=
  length (List.filter
            (λ row : nat * Article,
               Nat.eqb (author_profile (snd row)) profile
               && (time_threshold <=? publication_date (snd row)))
            (map_to_list (news_article w))).

Definition check_post_limit_body (request : HttpRequest) : View HttpResponse :=
  let u := user request in
  let type_param := GET request !! "article_type" in
  if negb (bool_decide (type_param ∈ [Some "news"; Some "article"])) then
    ret (HttpResponseBadRequest "Invalid article_type parameter")
  else
    premium <- gets (λ w, groups_filter_exists w u "premium") ;;
    let post_limit : nat := if premium : bool then 5%nat else 3%nat in
    now <- timezone_now ;;
    let time_threshold := now - timedelta_days 1 in
    profile <- user_profile u ;;
    posts_last_24_hours <- gets (λ w, posts_since w profile time_threshold) ;;
    if (posts_last_24_hours <? post_limit)%nat then
      ret (redirect ("/create/?article_type=" ++ default "" type_param) [])
    else
      still_premium <- gets (λ w, groups_filter_exists w u "premium") ;;
      let group_name := if still_premium : bool then "premium" else "basic" in
      match u with
      | LoggedIn pk row =>
          send_custom_email (generate_limit_email pk row post_limit group_name)
            [email row] false
      | AnonymousUser => raise AttributeError
      end ;;;
      render request "news/post_limit_exceeded.html"
        [("error_message",
          CStr ("Вы не можете публиковать более " ++ str_nat post_limit
                ++ " постов в сутки."))].

Definition check_post_limit (request : HttpRequest) : View HttpResponse :=
  user_passes_test is_author_or_superuser "permission_denied" request
    (check_post_limit_body request).

(** ** news/views_auth.py *)

(** Modelled from the spec: [CustomUserCreationForm] of [news/forms.py]
    is not among the sources.  A bound form decides [is_valid()] from the
    posted data and the users already stored, and [save(commit=False)]
    builds the unsaved user from the posted data. *)
Class CustomUserCreationForm := {
  is_valid : gmap nat User → gmap string string → bool;
  save_commit_false : gmap string string → User;
}.

(** [BaseAuthView.add_user_to_group] *)
Definition add_user_to_group (user_id : nat) (group_name : string) : View unit :=
  known <- gets (λ w, bool_decide (group_name ∈ auth_group w)) ;;
  if known : bool then
    modify (set_auth_user_groups (λ rel, {[ (user_id, group_name) ]} ∪ rel))
  else raise DoesNotExist.

Definition RegisterView_get (request : HttpRequest) : View HttpResponse :=
  render request "registration/register.html" [("form", CForm None)].

Definition RegisterView_post `{CustomUserCreationForm} `{Environment}
  (request : HttpRequest) : View HttpResponse :=
  valid <- gets (λ w, is_valid (auth_user w) (POST request)) ;;
  if valid : bool then
    let unsaved := save_commit_false (POST request) in
    let new_user := mkUser (username unsaved) (email unsaved) false
                      (is_superuser unsaved) in
    pk <- gets (λ w, next_pk (auth_user w)) ;;
    modify (set_auth_user <[pk := new_user]>) ;;;
    add_user_to_group pk "basic" ;;;
    let email_variant := WELCOME_EMAIL_VARIANT in
    send_custom_email (generate_welcome_email pk new_user email_variant)
      [email new_user] false ;;;
    ret (redirect "login" [])
  else
    render request "registration/register.html"
      [("form", CForm (Some (POST request)))].

Definition RegisterView `{CustomUserCreationForm} `{Environment}
  (request : HttpRequest) : View HttpResponse :=
  dispatch request (Some (RegisterView_get request))
    (Some (RegisterView_post request)).

Definition ActivateAccountView_get (request : HttpRequest) (user_id : nat)
  : View HttpResponse :=
  u <- get_object_or_404 auth_user user_id (λ _, true) ;;
  modify (set_auth_user
            <[user_id := mkUser (username u) (email u) true (is_superuser u)]>) ;;;
  ret (redirect "login" []).

Definition ActivateAccountView (request : HttpRequest) (user_id : nat)
  : View HttpResponse :=
  dispatch request (Some (ActivateAccountView_get request user_id)) None.

(** ** news/urls.py: the routes of the views above *)

Inductive Route :=
| article_detail (id : nat)
| create_post
| edit_post (pk : nat)
| delete_post (pk : nat)
| subscribe (category_id : nat)
| check_post_limit_route
| register
| activate_account (user_id : nat).

Definition urlpatterns `{CustomUserCreationForm} `{Environment}
  (route : Route) (request : HttpRequest) : View HttpResponse :=
  match route with
  | article_detail id => ArticleDetailView request id
  | create_post => ArticleCreateView request
  | edit_post pk => ArticleEditView request pk
  | delete_post pk => ArticleDeleteView request pk
  | subscribe category_id => subscribe_to_category request category_id
  | check_post_limit_route => check_post_limit request
  | register => RegisterView request
  | activate_account user_id => ActivateAccountView request user_id
  end.

(** ** A small site, used to run the views on concrete requests *)

Definition demo_alice : User := mkUser "alice" "alice@example.org" true false.
Definition demo_bob : User := mkUser "bob" "bob@example.org" true false.

Definition demo_article : Article :=
  mkArticle "Cup final" "Report" 1700000000000000 true 1 1 None.

Definition demo_key : string := "article_1_2023-11-14 22:13:20+00:00".

(** Alice (user 1, profile 1) is an author; Bob (user 2) subscribes to
    category 1; article 1 was published 100 seconds before the clock. *)
Definition demo_site : World :=
  mkWorld {[ 1%nat := demo_alice; 2%nat := demo_bob ]}
    {[ "authors"; "basic"; "premium" ]}
    {[ (1%nat, "authors") ]}
    {[ 1%nat := mkProfile 1 ]}
    {[ 1%nat := mkCategory "sport" ]}
    {[ (1%nat, 2%nat) ]}
    {[ 1%nat := demo_article ]}
    ∅ [] [] 1700000100000000 0.

Definition demo_detail : HttpRequest :=
  mkRequest HttpGet "/news/1/" AnonymousUser ∅ ∅.

Definition demo_page : HttpResponse :=
  Rendered demo_detail "news/article_detail.html"
    [("article", CArticle 1 demo_article); ("user_is_author", CBool false)].

(** The site after the detail page of article 1 has been served once. *)
Definition demo_site_cached : World :=
  set_cache <[demo_key := (demo_page, 1700000400000000)]>
    (set_render_count S demo_site).

(** The site with three articles of Alice inside the last 24 hours. *)
Definition demo_site_busy : World :=
  set_news_article
    (λ rows, <[2%nat := mkArticle "Second" "Text" 1700000050000000 false 1 1 None]>
               (<[3%nat := mkArticle "Third" "Text" 1700000060000000 false 1 1 None]>
                  rows))
    demo_site.

Definition demo_edit : HttpRequest :=
  mkRequest HttpPost "/edit/1/?article_type=1" (LoggedIn 1 demo_alice)
    {[ "article_type" := "1" ]} {[ "title" := "Cup final, updated"; "content" := "More" ]}.

Definition demo_edit_bad_type : HttpRequest :=
  mkRequest HttpPost "/edit/1/?article_type=2" (LoggedIn 1 demo_alice)
    {[ "article_type" := "2" ]} {[ "title" := "Cup final, updated"; "content" := "More" ]}.

Definition demo_delete_bad_type : HttpRequest :=
  mkRequest HttpPost "/delete/1/?article_type=news" (LoggedIn 1 demo_alice)
    {[ "article_type" := "news" ]} ∅.







Definition demo_limit : HttpRequest :=
  mkRequest HttpGet "/check_post_limit/?article_type=news" (LoggedIn 1 demo_alice)
    {[ "article_type" := "news" ]} ∅.

Definition demo_limit_other_type : HttpRequest :=
  mkRequest HttpGet "/check_post_limit/?article_type=1" (LoggedIn 1 demo_alice)
    {[ "article_type" := "1" ]} ∅.

Definition demo_limit_no_type : HttpRequest :=
  mkRequest HttpGet "/check_post_limit/" (LoggedIn 1 demo_alice) ∅ ∅.

Definition demo_register : HttpRequest :=
  mkRequest HttpPost "/register/" AnonymousUser ∅
    {[ "username" := "dave"; "email" := "dave@example.org" ]}.

Definition demo_register_taken : HttpRequest :=
  mkRequest HttpPost "/register/" AnonymousUser ∅
    {[ "username" := "alice"; "email" := "other@example.org" ]}.

(** A form for the concrete runs: valid when a user name is given that
    no stored user has. *)
Definition demo_form : CustomUserCreationForm :=
  {| is_valid users data :=
       match data !! "username" with
       | Some name =>
           negb (String.eqb name "")
           && negb (existsb (λ row : nat * User, String.eqb (username (snd row)) name)
                      (map_to_list users))
       | None => false
       end;
     save_commit_false data :=
       mkUser (default "" (data !! "username")) (default "" (data !! "email"))
         true false |}.

Definition demo_environment : Environment := {| WELCOME_EMAIL_VARIANT := 1 |}.

(** ** Notions used in the statements *)

(** The message that [send_article_notification] builds for a subscriber. *)
Definition notification_for (pk : nat) (a : Article) (s : nat * User)
  : EmailMessage :=
  mkEmail (generate_notification_email pk a (fst s) (snd s)) [email (snd s)] true.

(** Is the message a new-article notification made for this subscriber? *)
Definition notifies (uid : nat) (m : EmailMessage) : bool :=
  match email_content m with
  | generate_notification_email _ _ sid _ => Nat.eqb sid uid
  | _ => false
  end.

(** The state after a first subscription. *)
Definition subscribed (w : World) (category_id user_id : nat) (u : User)
  (c : Category) (article_id : nat) (a : Article) : World :=
  set_outbox
    (λ sent, (sent ++ [mkEmail (generate_subscription_email user_id u category_id c)
                         [email u] false])%list)
    (set_cache (delete (get_article_cache_key article_id (publication_date a)))
       (set_subscribers (λ rel, {[ (category_id, user_id) ]} ∪ rel) w)).


(** The limit that [check_post_limit] applies to the requesting user. *)
Definition post_limit_of (w : World) (u : RequestUser) : nat :=
  if groups_filter_exists w u "premium" then 5%nat else 3%nat.

(** A computation that never takes an entry out of the cache. *)
Definition keeps_cache {A} (m : View A) : Prop :=
  ∀ w key, is_Some (cache w !! key) → is_Some (cache (fst (m w)) !! key).

(** The entry under [key] is in the cache of [w] and not in that of [w']. *)
Definition evicted (w w' : World) (key : string) : Prop :=
  is_Some (cache w !! key) ∧ cache w' !! key = None.

(** The statement of C6 read literally: no request ever takes an entry
    out of the cache. *)
Definition no_request_evicts : Prop :=
  ∀ (route : Route) (request : HttpRequest) (w : World) (key : string),
    ¬ evicted w
        (fst (@urlpatterns demo_form demo_environment route request w)) key.

(** ** news/views_auth.py: the profile form *)

(** Modelled from the spec: [CustomUserChangeForm] of [news/forms.py] is
    not among the sources.  A form bound to the posted data and to the
    requesting user decides [is_valid()] from the stored users, and
    [save()] writes the row that the posted data make of the user. *)
Class CustomUserChangeForm := {
  change_is_valid : gmap nat User → nat → gmap string string → bool;
  change_save : User → gmap string string → User;
}.

(** [BaseAuthView.remove_user_from_group] *)
Definition remove_user_from_group (user_id : nat) (group_name : string) : View unit :=
  known <- gets (λ w, bool_decide (group_name ∈ auth_group w)) ;;
  if known : bool then
    modify (set_auth_user_groups (λ rel, rel ∖ {[ (user_id, group_name) ]}))
  else raise DoesNotExist.

(** [ProfileView.post] for the logged-in user [pk]. *)
Definition ProfileView_post `{CustomUserChangeForm} (request : HttpRequest)
  (pk : nat) (u : User) : View HttpResponse :=
  valid <- gets (λ w, change_is_valid (auth_user w) pk (POST request)) ;;
  if valid : bool then
    modify (set_auth_user <[pk := change_save u (POST request)]>) ;;;
    let account_type := default "False" (POST request !! "account_type") in
    (if String.eqb account_type "True" then add_user_to_group pk "premium"
     else remove_user_from_group pk "premium") ;;;
    let is_author := default "False" (POST request !! "is_author") in
    (if String.eqb is_author "True" then add_user_to_group pk "authors"
     else remove_user_from_group pk "authors") ;;;
    ret (redirect "profile" [])
  else
    render request "news/edit_profile.html"
      [("form", CForm (Some (POST request)))].


(** ** Further notions used in the statements *)

(** The state when the clock reads [t]. *)
Definition at_time (t : datetime) (w : World) : World :=
  mkWorld (auth_user w) (auth_group w) (auth_user_groups w) (news_profile w)
    (news_category w) (news_category_subscribers w) (news_article w) (cache w)
    (outbox w) (celery_queue w) t (render_count w).

(** Every cached response is a detail page stored under the key of the
    article it shows, and that article is the stored row of that id. *)
Definition cache_coherent (w : World) : Prop :=
  ∀ key response expiry,
    cache w !! key = Some (response, expiry) →
    ∃ request id a flag,
      response = Rendered request "news/article_detail.html"
                   [("article", CArticle id a); ("user_is_author", CBool flag)]
      ∧ key = get_article_cache_key id (publication_date a)
      ∧ news_article w !! id = Some a.

(** Bob, a logged-in reader who is neither author nor superuser. *)
Definition demo_reader_edit : HttpRequest :=
  mkRequest HttpPost "/edit/1/?article_type=1" (LoggedIn 2 demo_bob)
    {[ "article_type" := "1" ]} {[ "title" := "Defaced"; "content" := "x" ]}.

Definition demo_anonymous_edit : HttpRequest :=
  mkRequest HttpPost "/edit/1/?article_type=1" AnonymousUser
    {[ "article_type" := "1" ]} {[ "title" := "Defaced"; "content" := "x" ]}.

Definition demo_delete : HttpRequest :=
  mkRequest HttpPost "/delete/1/?article_type=1" (LoggedIn 1 demo_alice)
    {[ "article_type" := "1" ]} ∅.

Definition demo_edit_wrong_type : HttpRequest :=
  mkRequest HttpPost "/edit/1/?article_type=0" (LoggedIn 1 demo_alice)
    {[ "article_type" := "0" ]} {[ "title" := "Cup final, updated"; "content" := "More" ]}.

Definition demo_profile_post : HttpRequest :=
  mkRequest HttpPost "/edit_profile/" (LoggedIn 2 demo_bob) ∅
    {[ "username" := "bob"; "is_author" := "True" ]}.

(** A profile form for the concrete runs: valid when a user name is
    posted; saving replaces the user name. *)
Definition demo_change_form : CustomUserChangeForm :=
  {| change_is_valid users pk data := bool_decide (is_Some (data !! "username"));
     change_save u data :=
       mkUser (default (username u) (data !! "username")) (email u)
         (is_active u) (is_superuser u) |}.

(** A computation that leaves one component of the state as it was. *)
Definition untouched {A B} (component : World → B) (m : View A) : Prop :=
  ∀ w, component (fst (m w)) = component w.

(** A computation whose only possible effect is one more rendering. *)
Definition renders_only {A} (m : View A) : Prop :=
  ∀ w, fst (m w) = w ∨ fst (m w) = set_render_count S w.

(** The states the site can be in: those that requests to the routes and
    readings of the clock lead to from a starting state. *)
Inductive reachable `{CustomUserCreationForm} `{Environment} (start : World)
  : World → Prop :=
| reach_start : reachable start start
| reach_request (w : World) (route : Route) (request : HttpRequest) :
    reachable start w → reachable start (fst (urlpatterns route request w))
| reach_clock (w : World) (t : datetime) :
    reachable start w → reachable start (at_time t w).

(** A user row is still there, with the same name and email, and still
    active if it was. *)
Definition account_kept (w w' : World) : Prop :=
  ∀ uid u, auth_user w !! uid = Some u →
    ∃ u', auth_user w' !! uid = Some u'
          ∧ username u' = username u ∧ email u' = email u
          ∧ (is_active u = true → is_active u' = true).


(** The site before any group has been created. *)
Definition demo_site_no_groups : World :=
  mkWorld {[ 1%nat := demo_alice; 2%nat := demo_bob ]} ∅ ∅
    {[ 1%nat := mkProfile 1 ]} {[ 1%nat := mkCategory "sport" ]} ∅
    {[ 1%nat := demo_article ]} ∅ [] [] 1700000100000000 0.

Definition demo_create_form : HttpRequest :=
  mkRequest HttpGet "/create/?article_type=news" (LoggedIn 1 demo_alice)
    {[ "article_type" := "news" ]} ∅.

Definition demo_reader_limit : HttpRequest :=
  mkRequest HttpGet "/check_post_limit/?article_type=news" (LoggedIn 2 demo_bob)
    {[ "article_type" := "news" ]} ∅.

Definition demo_anonymous_subscribe : HttpRequest :=
  mkRequest HttpPost "/subscribe/1/" AnonymousUser ∅ {[ "article_id" := "1" ]}.

Definition demo_reader_create : HttpRequest :=
  mkRequest HttpPost "/create/?article_type=article" (LoggedIn 2 demo_bob)
    {[ "article_type" := "article" ]}
    {[ "title" := "Opinion"; "content" := "Text"; "category" := "1" ]}.

(** * Properties *)

(** ** Helper lemmas *)

Ltac unfold_view :=
  unfold login_required, user_passes_test, dispatch_if_allowed, dispatch,
    handle_no_permission, clear_article_cache, get_article_from_cache,
    set_article_to_cache, get_article, get_category_by_id,
    get_object_or_404_by_param, get_object_or_404, related, attr,
    add_user_to_group, render, timezone_now, cache_get, cache_set,
    cache_delete, send_custom_email, delay, bind, ret, raise, gets, modify
    in *.

Lemma truthy_Some (s : string) : s ≠ "" → truthy (Some s) = true.
Proof.
  intros Hs. simpl. destruct (String.eqb_spec s ""); [contradiction | reflexivity].
Qed.


Lemma next_pk_fresh {A} (table : gmap nat A) : table !! next_pk table = None.
Proof.
  apply not_elem_of_dom. intros Hin.
  apply elem_of_elements in Hin.
  apply max_list_elem_of_le in Hin. unfold next_pk in Hin. lia.
Qed.

Lemma dispatch_get (request : HttpRequest) (get : View HttpResponse)
  (post : option (View HttpResponse)) :
  method request = HttpGet → dispatch request (Some get) post = get.
Proof. intros Hget. unfold dispatch. rewrite Hget. reflexivity. Qed.

Lemma dispatch_post (request : HttpRequest) (get : option (View HttpResponse))
  (post : View HttpResponse) :
  method request = HttpPost → dispatch request get (Some post) = post.
Proof. intros Hpost. unfold dispatch. rewrite Hpost. reflexivity. Qed.

Example cache_key_of_demo_article :
  get_article_cache_key 1 (publication_date demo_article) = demo_key.
Proof. vm_compute. reflexivity. Qed.

Example cache_key_with_microseconds :
  get_article_cache_key 12 951782400000123
  = "article_12_2000-02-29 00:00:00.000123+00:00".
Proof. vm_compute. reflexivity. Qed.

Example parse_pk_examples :
  parse_pk "42" = Some 42%nat ∧ parse_pk "" = None ∧ parse_pk "4x" = None.
Proof. repeat split. Qed.

Example python_int_examples :
  python_int " 1" = Some 1 ∧ python_int "+1" = Some 1
  ∧ python_int "-1" = Some (-1) ∧ python_int "1_0" = Some 10
  ∧ python_int "007 " = Some 7 ∧ python_int "1__0" = None
  ∧ python_int "_1" = None ∧ python_int "1_" = None ∧ python_int "+ 1" = None
  ∧ python_int "1 2" = None ∧ python_int "abc" = None ∧ python_int "-" = None
  ∧ python_int "  " = None
  ∧ parse_pk " 1" = Some 1%nat ∧ parse_pk "-1" = None.
Proof. repeat split. Qed.

(** ** C1 *)

(** C1. A GET of the article-detail view on an existing article: when the
    cache holds a response under the key built from the article's id and
    publication date, that response is returned and nothing changes, in
    particular no template is rendered; otherwise the page is rendered
    once, the rendered response is stored under exactly that key with
    expiry 300 seconds after the current time, and it is returned. *)
Theorem detail_view_reads_through_cache
  (request : HttpRequest) (id : nat) (a : Article) (w : World) :
  news_article w !! id = Some a →
  let key := get_article_cache_key id (publication_date a) in
  (∀ cached, cached_at w key = Some cached →
     ArticleDetailView_get request id w = (w, Ok cached))
  ∧ (∀ p u, cached_at w key = None →
       news_profile w !! author_profile a = Some p →
       auth_user w !! profile_user p = Some u →
       let response :=
         Rendered request "news/article_detail.html"
           [("article", CArticle id a);
            ("user_is_author",
             CBool match user request with
                   | LoggedIn pk _ => Nat.eqb pk (profile_user p)
                   | AnonymousUser => false
                   end)] in
       let w' :=
         set_cache <[key := (response, clock w + timedelta_seconds 300)]>
           (set_render_count S w) in
       ArticleDetailView_get request id w = (w', Ok response)
       ∧ render_count w' = S (render_count w)
       ∧ cached_at w' key = Some response
       ∧ ∀ k, k ≠ key → cache w' !! k = cache w !! k).
Proof.
  intros Ha key. split.
  - intros cached Hc. unfold ArticleDetailView_get. unfold_view.
    rewrite Ha. simpl. fold key. rewrite Hc. reflexivity.
  - intros p u Hc Hp Hu response w'. repeat split.
    + unfold ArticleDetailView_get. unfold_view.
      rewrite Ha. simpl. fold key. rewrite Hc. simpl. rewrite Hp. simpl.
      rewrite Hu. reflexivity.
    + unfold cached_at, w'. simpl. rewrite lookup_insert_eq.
      unfold timedelta_seconds, microseconds_per_second.
      destruct (Z.leb_spec (clock w) (clock w + 300 * 1000000)); [reflexivity | lia].
    + intros k Hk. unfold w'. simpl. apply lookup_insert_ne. congruence.
Qed.

(** ** C2 *)

Lemma elem_of_subscribers_all (w : World) (category_id uid : nat) (u : User) :
  (uid, u) ∈ subscribers_all w category_id
  ↔ (category_id, uid) ∈ news_category_subscribers w ∧ auth_user w !! uid = Some u.
Proof.
  unfold subscribers_all. rewrite list_elem_of_omap. split.
  - intros [[c s] [Hin Hf]]. simpl in Hf.
    destruct (Nat.eqb_spec c category_id) as [->|]; [|discriminate].
    destruct (auth_user w !! s) as [u'|] eqn:Hu; [|discriminate].
    simpl in Hf. injection Hf as <- <-.
    split; [by apply elem_of_elements | done].
  - intros [Hin Hu]. exists (category_id, uid). split.
    + by apply elem_of_elements.
    + simpl. rewrite Nat.eqb_refl, Hu. reflexivity.
Qed.

Lemma subscribers_all_NoDup (w : World) (category_id : nat) :
  NoDup (fst <$> subscribers_all w category_id).
Proof.
  unfold subscribers_all.
  pose proof (NoDup_elements (news_category_subscribers w)) as Hnd.
  induction Hnd as [|[c s] l Hnotin Hnd IH]; simpl; [constructor|].
  destruct (Nat.eqb_spec c category_id) as [->|]; [|exact IH].
  destruct (auth_user w !! s) as [u|]; simpl; [|exact IH].
  constructor; [|exact IH].
  intros Hin. apply list_elem_of_fmap in Hin as [[s' u'] [Heq Hin]].
  simpl in Heq. subst s'.
  apply list_elem_of_omap in Hin as [[c' s''] [Hin Hf]]. simpl in Hf.
  destruct (Nat.eqb_spec c' category_id) as [->|]; [|discriminate].
  destruct (auth_user w !! s''); [|discriminate].
  simpl in Hf. injection Hf as -> _. contradiction.
Qed.

Lemma set_outbox_nil (w : World) : set_outbox (λ sent, (sent ++ [])%list) w = w.
Proof. destruct w. unfold set_outbox. simpl. by rewrite app_nil_r. Qed.

Lemma for_each_send {A} (xs : list A) (c : A → EmailContent)
  (r : A → list string) (html : bool) (w : World) :
  for_each xs (λ x, send_custom_email (c x) (r x) html) w
  = (set_outbox (λ sent, (sent ++ map (λ x, mkEmail (c x) (r x) html) xs)%list) w,
     Ok tt).
Proof.
  revert w. induction xs as [|x xs IH]; intros w; simpl.
  - unfold ret. by rewrite set_outbox_nil.
  - unfold bind, send_custom_email, modify. rewrite IH.
    destruct w. unfold set_outbox. simpl. by rewrite <- app_assoc.
Qed.

Lemma one_notification_each (pk : nat) (a : Article) (subs : list (nat * User))
  (uid : nat) (u : User) :
  NoDup (fst <$> subs) → (uid, u) ∈ subs →
  List.filter (notifies uid) (map (notification_for pk a) subs)
  = [notification_for pk a (uid, u)].
Proof.
  induction subs as [|[s su] subs IH]; intros Hnd Hin.
  - by apply elem_of_nil in Hin.
  - simpl in Hnd. apply NoDup_cons in Hnd as [Hnotin Hnd].
    apply elem_of_cons in Hin as [Heq|Hin]; simpl; unfold notifies at 1; simpl.
    + injection Heq as <- <-. rewrite Nat.eqb_refl. f_equal.
      clear IH Hnd. induction subs as [|[s' su'] subs IH]; simpl; [done|].
      unfold notifies at 1; simpl.
      destruct (Nat.eqb_spec s' uid) as [->|].
      * exfalso. apply Hnotin. simpl. left.
      * apply IH. intros Hin. apply Hnotin. simpl. by right.
    + destruct (Nat.eqb_spec s uid) as [->|].
      * exfalso. apply Hnotin. apply list_elem_of_fmap. by exists (uid, u).
      * by apply IH.
Qed.

(** C2. [send_article_notification] with [use_celery] true puts exactly
    one task carrying the article's id on the queue and leaves the outbox
    as it was; with [use_celery] false it leaves the queue as it was and
    appends to the outbox one notification for each subscriber of the
    article's category, addressed to that subscriber's email alone: the
    subscribers are listed without repetition, and the messages made for
    a given subscriber are exactly one. *)
Theorem notification_dispatch (pk : nat) (a : Article) (w : World) :
  (let w' := set_celery_queue
               (λ q, (q ++ [send_new_article_notification pk])%list) w in
   send_article_notification pk a true w = (w', Ok tt)
   ∧ celery_queue w' = (celery_queue w ++ [send_new_article_notification pk])%list
   ∧ outbox w' = outbox w)
  ∧ (∀ c, news_category w !! category a = Some c →
       let subs := subscribers_all w (category a) in
       let sent_now := map (notification_for pk a) subs in
       let w' := set_outbox (λ sent, (sent ++ sent_now)%list) w in
       send_article_notification pk a false w = (w', Ok tt)
       ∧ celery_queue w' = celery_queue w
       ∧ outbox w' = (outbox w ++ sent_now)%list
       ∧ NoDup (fst <$> subs)
       ∧ (∀ uid u, (uid, u) ∈ subs
            ↔ (category a, uid) ∈ news_category_subscribers w
              ∧ auth_user w !! uid = Some u)
       ∧ (∀ uid u, (uid, u) ∈ subs →
            List.filter (notifies uid) sent_now
            = [mkEmail (generate_notification_email pk a uid u) [email u] true])).
Proof.
  split.
  - repeat split.
  - intros c Hc subs sent_now w'. split_and!; try reflexivity.
    + unfold send_article_notification. unfold_view. rewrite Hc. simpl.
      apply (for_each_send (subscribers_all w (category a))
               (λ s, generate_notification_email pk a (fst s) (snd s))
               (λ s, [email (snd s)]) true w).
    + apply subscribers_all_NoDup.
    + intros uid u. apply elem_of_subscribers_all.
    + intros uid u Hin. apply (one_notification_each pk a subs uid u); [|done].
      apply subscribers_all_NoDup.
Qed.

(** ** C3 *)





(** ** C4 *)


(** ** C5 *)

(** C5. A POST to the edit view with non-empty title and content, on an
    existing article whose type matches the [article_type] parameter:
    the stored article keeps its category, author profile, article type
    and rating, its title and content become the posted values and its
    publication date the current time; every other article is as it was,
    and the answer redirects to the article's detail page. *)
Theorem edit_changes_only_title_content_date
  (request : HttpRequest) (pk : nat) (a : Article) (ty t c : string) (w : World) :
  GET request !! "article_type" = Some ty →
  (ty = "1" ∧ article_type a = true) ∨ (ty = "0" ∧ article_type a = false) →
  news_article w !! pk = Some a →
  POST request !! "title" = Some t → t ≠ "" →
  POST request !! "content" = Some c → c ≠ "" →
  ∃ w' a',
    ArticleEditView_post request pk w
    = (w', Ok (redirect "article_detail" [("id", pk)]))
    ∧ news_article w' !! pk = Some a'
    ∧ title a' = t ∧ content a' = c ∧ publication_date a' = clock w
    ∧ category a' = category a ∧ author_profile a' = author_profile a
    ∧ article_type a' = article_type a ∧ rating a' = rating a
    ∧ (∀ k, k ≠ pk → news_article w' !! k = news_article w !! k)
    ∧ auth_user w' = auth_user w ∧ news_profile w' = news_profile w
    ∧ news_category w' = news_category w
    ∧ news_category_subscribers w' = news_category_subscribers w
    ∧ outbox w' = outbox w ∧ celery_queue w' = celery_queue w.
Proof.
  intros Hty Hmatch Ha Ht Htne Hc Hcne.
  exists (set_news_article
            <[pk := mkArticle t c (clock w) (article_type a) (category a)
                      (author_profile a) (rating a)]>
            (set_cache (delete (get_article_cache_key pk (publication_date a))) w)).
  exists (mkArticle t c (clock w) (article_type a) (category a)
            (author_profile a) (rating a)).
  split_and!; try reflexivity.
  - unfold ArticleEditView_post. unfold_view. rewrite Hty, Ht, Hc.
    rewrite !truthy_Some by done.
    destruct Hmatch as [[-> Hb]|[-> Hb]]; simpl; rewrite Ha; simpl.
    + replace (eqb (article_type a) true) with true
        by (rewrite Hb; reflexivity).
      reflexivity.
    + replace (eqb (article_type a) false) with true
        by (rewrite Hb; reflexivity).
      reflexivity.
  - simpl. apply lookup_insert_eq.
  - intros k Hk. simpl. by apply lookup_insert_ne.
Qed.

(** ** C7 *)

(** C7 (amended). A POST to the registration view.  When the form is valid
    and a group named ['basic'] exists, exactly one user row is added, under an
    unused key; that user is inactive and is put in the group ['basic'];
    exactly one welcome message, addressed to the user's email alone, is
    appended to the outbox; the answer redirects to the login page.  When
    the form is invalid no user is created and the form page is rendered
    again with the posted data. *)
Theorem registration_creates_inactive_basic_user
  `{CustomUserCreationForm} `{Environment} (request : HttpRequest) (w : World) :
  (is_valid (auth_user w) (POST request) = true → "basic" ∈ auth_group w →
   let unsaved := save_commit_false (POST request) in
   let pk := next_pk (auth_user w) in
   ∃ w' new_user,
     RegisterView_post request w = (w', Ok (redirect "login" []))
     ∧ auth_user w !! pk = None
     ∧ auth_user w' = <[pk := new_user]> (auth_user w)
     ∧ is_active new_user = false
     ∧ username new_user = username unsaved ∧ email new_user = email unsaved
     ∧ is_superuser new_user = is_superuser unsaved
     ∧ auth_user_groups w' = {[ (pk, "basic") ]} ∪ auth_user_groups w
     ∧ outbox w'
       = (outbox w
          ++ [mkEmail (generate_welcome_email pk new_user WELCOME_EMAIL_VARIANT)
                [email new_user] false])%list
     ∧ news_article w' = news_article w ∧ cache w' = cache w
     ∧ celery_queue w' = celery_queue w)
  ∧ (is_valid (auth_user w) (POST request) = false →
     let w' := set_render_count S w in
     RegisterView_post request w
     = (w', Ok (Rendered request "registration/register.html"
                  [("form", CForm (Some (POST request)))]))
     ∧ auth_user w' = auth_user w ∧ outbox w' = outbox w).
Proof.
  split.
  - intros Hvalid Hgroup unsaved pk.
    set (new_user := mkUser (username unsaved) (email unsaved) false
                       (is_superuser unsaved)).
    exists (set_outbox
              (λ sent, (sent ++ [mkEmail (generate_welcome_email pk new_user
                                            WELCOME_EMAIL_VARIANT)
                                   [email new_user] false])%list)
              (set_auth_user_groups (λ rel, {[ (pk, "basic") ]} ∪ rel)
                 (set_auth_user <[pk := new_user]> w))), new_user.
    split_and!; try reflexivity.
    + unfold RegisterView_post. unfold_view. rewrite Hvalid. simpl.
      rewrite bool_decide_eq_true_2 by done. reflexivity.
    + apply next_pk_fresh.
  - intros Hinvalid w'. split_and!; try reflexivity.
    unfold RegisterView_post. unfold_view. rewrite Hinvalid. reflexivity.
Qed.

(** ** C9 *)

(** C9 (amended). For an author or superuser with a profile and a request
    whose [article_type] parameter is ['news'] or ['article']:
    [check_post_limit] redirects to the creation page exactly when the
    number of the user's articles published in the last 24 hours is
    below 5 for a member of ['premium'] and below 3 otherwise; at or
    above the limit it appends exactly one limit message addressed to the
    user's email alone and renders the limit page.  No article is created
    in either case.  For an author or superuser and a request whose
    [article_type] parameter is missing or has any other value, the view
    answers 400 Bad Request before it counts: nothing is sent, rendered
    or changed. *)
Theorem post_limit_is_strict_for_valid_type (request : HttpRequest) (w : World) :
  is_author_or_superuser w (user request) = true →
  (∀ uid u profile ty,
     user request = LoggedIn uid u →
     user_profile (user request) w = (w, Ok profile) →
     GET request !! "article_type" = Some ty → ty = "news" ∨ ty = "article" →
     let limit := post_limit_of w (user request) in
     let posts := posts_since w profile (clock w - timedelta_days 1) in
     let group_name :=
       if groups_filter_exists w (user request) "premium" then "premium"
       else "basic" in
     let mail :=
       mkEmail (generate_limit_email uid u limit group_name) [email u] false in
     let page :=
       Rendered request "news/post_limit_exceeded.html"
         [("error_message",
           CStr ("Вы не можете публиковать более " ++ str_nat limit
                 ++ " постов в сутки."))] in
     ((posts < limit)%nat →
        check_post_limit request w
        = (w, Ok (redirect ("/create/?article_type=" ++ ty) [])))
     ∧ ((limit ≤ posts)%nat →
          check_post_limit request w
          = (set_render_count S (set_outbox (λ sent, (sent ++ [mail])%list) w),
             Ok page))
     ∧ ((∃ to, snd (check_post_limit request w) = Ok (HttpResponseRedirect to []))
        ↔ (posts < limit)%nat)
     ∧ news_article (fst (check_post_limit request w)) = news_article w)
  ∧ (GET request !! "article_type" ∉ [Some "news"; Some "article"] →
     check_post_limit request w
     = (w, Ok (HttpResponseBadRequest "Invalid article_type parameter"))).
Proof.
  intros Hauth. split.
  - intros uid u profile ty Hu Hprof Hty Hok limit posts group_name mail page.
    assert (bool_decide (Some ty ∈ [Some "news"; Some "article"]) = true) as Hmem.
    { apply bool_decide_eq_true_2. destruct Hok as [-> | ->]; set_solver. }
    assert ((posts < limit)%nat →
            check_post_limit request w
            = (w, Ok (redirect ("/create/?article_type=" ++ ty) []))) as Hlow.
    { intros Hlt. unfold check_post_limit, check_post_limit_body. unfold_view.
      rewrite Hauth, Hty, Hmem. simpl. rewrite Hprof.
      fold posts. unfold limit, post_limit_of in Hlt.
      apply Nat.ltb_lt in Hlt. rewrite Hlt. reflexivity. }
    assert ((limit ≤ posts)%nat →
            check_post_limit request w
            = (set_render_count S (set_outbox (λ sent, (sent ++ [mail])%list) w),
               Ok page)) as Hhigh.
    { intros Hge. unfold check_post_limit, check_post_limit_body. unfold_view.
      rewrite Hauth, Hty, Hmem. simpl. rewrite Hprof.
      fold posts. unfold limit, post_limit_of in Hge.
      apply Nat.ltb_ge in Hge. rewrite Hge. simpl.
      unfold page, mail, group_name, limit, post_limit_of.
      rewrite Hu. reflexivity. }
    split_and!; [exact Hlow | exact Hhigh | | ].
    + split.
      * intros [to Hto].
        destruct (Nat.lt_ge_cases posts limit) as [?|Hge]; [done|].
        rewrite (Hhigh Hge) in Hto. discriminate.
      * intros Hlt. eexists. rewrite (Hlow Hlt). reflexivity.
    + destruct (Nat.lt_ge_cases posts limit) as [Hlt|Hge].
      * by rewrite (Hlow Hlt).
      * by rewrite (Hhigh Hge).
  - intros Hbad. unfold check_post_limit, check_post_limit_body. unfold_view.
    rewrite Hauth. rewrite bool_decide_eq_false_2 by done. reflexivity.
Qed.

(** ** C10 *)

(** C10. The activation view treats every requester alike: for one user
    id and one state, any two requests give the same resulting state and
    the same outcome; when the user exists, that outcome is the redirect
    to the login page and the state differs from the old one only in that
    user's [is_active] flag, now true. *)
Theorem activation_ignores_requester (user_id : nat) (w : World) :
  (∀ request1 request2,
     ActivateAccountView_get request1 user_id w
     = ActivateAccountView_get request2 user_id w)
  ∧ (∀ request1 request2,
       method request1 = HttpGet → method request2 = HttpGet →
       ActivateAccountView request1 user_id w
       = ActivateAccountView request2 user_id w)
  ∧ (∀ request u, auth_user w !! user_id = Some u →
       ActivateAccountView_get request user_id w
       = (set_auth_user
            <[user_id := mkUser (username u) (email u) true (is_superuser u)]> w,
          Ok (redirect "login" []))).
Proof.
  split_and!.
  - intros request1 request2. reflexivity.
  - intros request1 request2 Hget1 Hget2.
    unfold ActivateAccountView, dispatch. rewrite Hget1, Hget2. reflexivity.
  - intros request u Hu. unfold ActivateAccountView_get. unfold_view.
    rewrite Hu. reflexivity.
Qed.

(** ** C6 *)

Lemma keeps_ret {A} (a : A) : keeps_cache (ret a).
Proof. intros w key Hs. exact Hs. Qed.

Lemma keeps_raise {A} (e : Exception) : keeps_cache (@raise A e).
Proof. intros w key Hs. exact Hs. Qed.

Lemma keeps_gets {A} (f : World → A) : keeps_cache (gets f).
Proof. intros w key Hs. exact Hs. Qed.

Lemma keeps_modify (f : World → World) :
  (∀ w, cache (f w) = cache w) → keeps_cache (modify f).
Proof. intros Hf w key Hs. simpl. by rewrite Hf. Qed.

Lemma keeps_bind {A B} (m : View A) (k : A → View B) :
  keeps_cache m → (∀ a, keeps_cache (k a)) → keeps_cache (bind m k).
Proof.
  intros Hm Hk w key Hs. unfold bind. specialize (Hm w key Hs).
  destruct (m w) as [w1 [a|e]]; simpl in *; [by apply Hk | done].
Qed.

Lemma keeps_cache_set (key : string) (value : HttpResponse) (timeout : Z) :
  keeps_cache (cache_set key value timeout).
Proof.
  intros w k Hs. simpl. destruct (decide (key = k)) as [->|Hne].
  - rewrite lookup_insert_eq. eauto.
  - by rewrite lookup_insert_ne.
Qed.

Lemma keeps_for_each {A} (xs : list A) (body : A → View unit) :
  (∀ x, keeps_cache (body x)) → keeps_cache (for_each xs body).
Proof.
  intros Hbody. induction xs as [|x xs IH]; simpl.
  - apply keeps_ret.
  - apply keeps_bind; [apply Hbody | intros _; exact IH].
Qed.

Lemma keeps_dispatch (request : HttpRequest) (get post : option (View HttpResponse)) :
  from_option keeps_cache True get → from_option keeps_cache True post →
  keeps_cache (dispatch request get post).
Proof.
  intros Hget Hpost. unfold dispatch.
  destruct (method request), get, post; simpl in *; try done; apply keeps_ret.
Qed.

Ltac keeps_step :=
  first
    [ apply keeps_ret | apply keeps_raise | apply keeps_gets
    | apply keeps_cache_set
    | apply keeps_dispatch; simpl from_option; [try exact I | try exact I]
    | apply keeps_modify; intros ?; reflexivity
    | apply keeps_for_each; intros ?
    | apply keeps_bind; [|intros ?]
    | match goal with
      | |- keeps_cache (match ?x with _ => _ end) => destruct x
      | |- keeps_cache (if ?x then _ else _) => destruct x
      end ].

Ltac keeps :=
  unfold login_required, user_passes_test, dispatch_if_allowed,
    handle_no_permission, get_article_from_cache, set_article_to_cache,
    send_article_notification, get_article, get_category_by_id,
    get_object_or_404_by_param, get_object_or_404, related, attr, user_profile,
    add_user_to_group, render, timezone_now, cache_get, send_custom_email,
    delay;
  cbv zeta;
  repeat keeps_step.

Lemma detail_keeps (request : HttpRequest) (id : nat) :
  keeps_cache (ArticleDetailView request id).
Proof. unfold ArticleDetailView, ArticleDetailView_get. keeps. Qed.

Lemma create_get_keeps (request : HttpRequest) :
  keeps_cache (ArticleCreateView_get request).
Proof. unfold ArticleCreateView_get. keeps. Qed.

Lemma create_post_keeps (request : HttpRequest) :
  keeps_cache (ArticleCreateView_post request).
Proof. unfold ArticleCreateView_post. keeps. Qed.

Lemma edit_get_keeps (request : HttpRequest) (pk : nat) :
  keeps_cache (ArticleEditView_get request pk).
Proof. unfold ArticleEditView_get. keeps. Qed.

Lemma delete_get_keeps (request : HttpRequest) (pk : nat) :
  keeps_cache (ArticleDeleteView_get request pk).
Proof. unfold ArticleDeleteView_get. keeps. Qed.

Lemma check_post_limit_keeps (request : HttpRequest) :
  keeps_cache (check_post_limit request).
Proof. unfold check_post_limit, check_post_limit_body. keeps. Qed.

Lemma register_keeps `{CustomUserCreationForm} `{Environment}
  (request : HttpRequest) : keeps_cache (RegisterView request).
Proof. unfold RegisterView, RegisterView_get, RegisterView_post. keeps. Qed.

Lemma activate_keeps (request : HttpRequest) (user_id : nat) :
  keeps_cache (ActivateAccountView request user_id).
Proof. unfold ActivateAccountView, ActivateAccountView_get. keeps. Qed.

Lemma create_keeps (request : HttpRequest) : keeps_cache (ArticleCreateView request).
Proof.
  unfold ArticleCreateView. keeps.
  - apply create_get_keeps.
  - apply create_post_keeps.
Qed.

Lemma not_evicted_same (w w' : World) (key : string) :
  cache w' = cache w → ¬ evicted w w' key.
Proof. intros Heq [Hs Hn]. rewrite Heq in Hn. rewrite Hn in Hs. by destruct Hs. Qed.

Lemma not_evicted_keeps {A} (m : View A) (w : World) (key : string) :
  keeps_cache m → ¬ evicted w (fst (m w)) key.
Proof. intros Hm [Hs Hn]. apply Hm in Hs. rewrite Hn in Hs. by destruct Hs. Qed.

Lemma evicted_delete (w w' : World) (key k : string) :
  cache w' = delete k (cache w) → evicted w w' key → key = k.
Proof.
  intros Heq [Hs Hn]. destruct (decide (key = k)) as [|Hne]; [done|].
  rewrite Heq, lookup_delete_ne in Hn by done. rewrite Hn in Hs. by destruct Hs.
Qed.

(** Behind the access checks, only the POST handler can evict. *)
Lemma gated_evicts (request : HttpRequest) (get post : View HttpResponse)
  (w : World) (key : string) :
  keeps_cache get →
  evicted w (fst (dispatch_if_allowed request
                    (dispatch request (Some get) (Some post)) w)) key →
  method request = HttpPost ∧ evicted w (fst (post w)) key.
Proof.
  intros Hget. unfold dispatch_if_allowed, handle_no_permission, dispatch.
  unfold bind, gets, ret, raise.
  destruct (is_authenticated (user request)); simpl.
  - destruct (test_func w request); simpl.
    + destruct (method request); simpl; intros Hev.
      * by apply not_evicted_keeps in Hev.
      * done.
      * by apply not_evicted_same in Hev.
    + intros Hev. by apply not_evicted_same in Hev.
  - intros Hev. by apply not_evicted_same in Hev.
Qed.

Lemma edit_post_evicts (request : HttpRequest) (pk : nat) (w : World) (key : string) :
  evicted w (fst (ArticleEditView_post request pk w)) key →
  ∃ a, news_article w !! pk = Some a
       ∧ key = get_article_cache_key pk (publication_date a).
Proof.
  unfold ArticleEditView_post. unfold_view.
  destruct (bool_decide (GET request !! "article_type" ∈ [Some "0"; Some "1"]));
    simpl.
  - destruct (news_article w !! pk) as [a|] eqn:Ha; simpl.
    + destruct (eqb (article_type a) _); simpl.
      * destruct (negb (truthy (POST request !! "title"))
                  || negb (truthy (POST request !! "content"))); simpl.
        -- intros Hev. by apply not_evicted_same in Hev.
        -- intros Hev. exists a. split; [done|].
           eapply evicted_delete; [|exact Hev]; reflexivity.
      * intros Hev. by apply not_evicted_same in Hev.
    + intros Hev. by apply not_evicted_same in Hev.
  - destruct (negb (truthy (POST request !! "title"))
              || negb (truthy (POST request !! "content"))); simpl;
      intros Hev; by apply not_evicted_same in Hev.
Qed.

Lemma delete_post_evicts (request : HttpRequest) (pk : nat) (w : World) (key : string) :
  evicted w (fst (ArticleDeleteView_post request pk w)) key →
  ∃ a, news_article w !! pk = Some a
       ∧ key = get_article_cache_key pk (publication_date a).
Proof.
  unfold ArticleDeleteView_post. unfold_view.
  destruct (bool_decide (GET request !! "article_type" ∈ [Some "0"; Some "1"]));
    simpl.
  - destruct (news_article w !! pk) as [a|] eqn:Ha; simpl.
    + destruct (eqb (article_type a) _); simpl.
      * intros Hev. exists a. split; [done|].
        eapply evicted_delete; [|exact Hev]; reflexivity.
      * intros Hev. by apply not_evicted_same in Hev.
    + intros Hev. by apply not_evicted_same in Hev.
  - intros Hev. by apply not_evicted_same in Hev.
Qed.

Lemma subscribe_evicts (request : HttpRequest) (cid : nat) (w : World) (key : string) :
  evicted w (fst (subscribe_to_category request cid w)) key →
  ∃ pk a uid u s,
    news_article w !! pk = Some a
    ∧ key = get_article_cache_key pk (publication_date a)
    ∧ user request = LoggedIn uid u
    ∧ POST request !! "article_id" = Some s ∧ parse_pk s = Some pk
    ∧ uid ∉ (fst <$> subscribers_all w cid).
Proof.
  unfold subscribe_to_category, subscribe_to_category_body. unfold_view.
  destruct (user request) as [|uid u] eqn:Hu; simpl.
  { intros Hev. by apply not_evicted_same in Hev. }
  destruct (news_category w !! cid) as [c|]; simpl.
  2: { intros Hev. by apply not_evicted_same in Hev. }
  destruct (POST request !! "article_id") as [s|] eqn:Hs; simpl.
  2: { intros Hev. by apply not_evicted_same in Hev. }
  destruct (parse_pk s) as [pk|] eqn:Hpk; simpl.
  2: { destruct (python_int s); simpl; intros Hev;
       by apply not_evicted_same in Hev. }
  destruct (news_article w !! pk) as [a|] eqn:Ha; simpl.
  2: { intros Hev. by apply not_evicted_same in Hev. }
  destruct (bool_decide (uid ∈ (fst <$> subscribers_all w cid))) eqn:Hin; simpl.
  { intros Hev. by apply not_evicted_same in Hev. }
  intros Hev. exists pk, a, uid, u, s. split_and!; try done.
  - eapply evicted_delete; [|exact Hev]; reflexivity.
  - by apply bool_decide_eq_false_1 in Hin.
Qed.

(** C6 (amended). The views do take entries out of the cache, but only by
    invalidation: if an entry is in the cache before a request and gone
    after it, the request is a POST to the edit view or to the delete
    view of an existing article, or a subscription by a logged-in user
    who is not yet listed as a subscriber, and the entry is the one under
    the key of the article concerned.  The detail view, the create view,
    [check_post_limit], registration and activation remove nothing. *)
Theorem cache_entries_leave_only_by_invalidation
  `{CustomUserCreationForm} `{Environment}
  (route : Route) (request : HttpRequest) (w : World) (key : string) :
  evicted w (fst (urlpatterns route request w)) key →
  ∃ pk a,
    news_article w !! pk = Some a
    ∧ key = get_article_cache_key pk (publication_date a)
    ∧ ((route = edit_post pk ∧ method request = HttpPost)
       ∨ (route = delete_post pk ∧ method request = HttpPost)
       ∨ (∃ cid uid u s,
            route = subscribe cid ∧ user request = LoggedIn uid u
            ∧ POST request !! "article_id" = Some s ∧ parse_pk s = Some pk
            ∧ uid ∉ (fst <$> subscribers_all w cid))).
Proof.
  destruct route as [id| |pk|pk|cid| | |user_id]; simpl; intros Hev.
  - by apply not_evicted_keeps in Hev; [|apply detail_keeps].
  - by apply not_evicted_keeps in Hev; [|apply create_keeps].
  - apply gated_evicts in Hev as [Hpost Hev]; [|apply edit_get_keeps].
    apply edit_post_evicts in Hev as (a & Ha & Hkey). eauto 10.
  - apply gated_evicts in Hev as [Hpost Hev]; [|apply delete_get_keeps].
    apply delete_post_evicts in Hev as (a & Ha & Hkey). eauto 10.
  - apply subscribe_evicts
      in Hev as (pk & a & uid & u & s & Ha & Hkey & Hu & Hs & Hpk & Hnot).
    exists pk, a. split_and!; try done. right. right. by exists cid, uid, u, s.
  - by apply not_evicted_keeps in Hev; [|apply check_post_limit_keeps].
  - by apply not_evicted_keeps in Hev; [|apply register_keeps].
  - by apply not_evicted_keeps in Hev; [|apply activate_keeps].
Qed.

(** C6 as stated fails: the entry of article 1 is in the cache before
    Alice's edit and gone after it. *)
Lemma edit_evicts_cached_page : ¬ no_request_evicts.
Proof.
  intros Hnone.
  apply (Hnone (edit_post 1) demo_edit demo_site_cached demo_key).
  split.
  - exists (demo_page, 1700000400000000). vm_compute. reflexivity.
  - vm_compute. reflexivity.
Qed.

Lemma cache_entries_leave_only_by_invalidation_witness :
  evicted demo_site_cached
    (fst (@urlpatterns demo_form demo_environment (edit_post 1) demo_edit
            demo_site_cached)) demo_key
  ∧ ∃ pk a,
      news_article demo_site_cached !! pk = Some a
      ∧ demo_key = get_article_cache_key pk (publication_date a)
      ∧ ((edit_post 1 = edit_post pk ∧ method demo_edit = HttpPost)
         ∨ (edit_post 1 = delete_post pk ∧ method demo_edit = HttpPost)
         ∨ (∃ cid uid u s,
              edit_post 1 = subscribe cid ∧ user demo_edit = LoggedIn uid u
              ∧ POST demo_edit !! "article_id" = Some s ∧ parse_pk s = Some pk
              ∧ uid ∉ (fst <$> subscribers_all demo_site_cached cid))).
Proof.
  assert (evicted demo_site_cached
            (fst (@urlpatterns demo_form demo_environment (edit_post 1) demo_edit
                    demo_site_cached)) demo_key) as Hev.
  { split.
    - exists (demo_page, 1700000400000000). vm_compute. reflexivity.
    - vm_compute. reflexivity. }
  split; [exact Hev|].
  exact (@cache_entries_leave_only_by_invalidation demo_form demo_environment
           (edit_post 1) demo_edit demo_site_cached demo_key Hev).
Defined.

(** ** C8 *)

(** With an [article_type] other than ['0'] and ['1'], [get_article]
    hands its [HttpResponseBadRequest] to the caller as if it were the
    article: the delete handler and the edit handler with a complete form
    fail on the first attribute they read, and the edit handler with an
    incomplete form renders the form page.  None of them answers 400;
    the tables and the cache are untouched. *)
Lemma bad_article_type_is_not_answered_400
  (request : HttpRequest) (pk : nat) (w : World) :
  GET request !! "article_type" ∉ [Some "0"; Some "1"] →
  ArticleDeleteView_post request pk w = (w, Raise AttributeError)
  ∧ ArticleEditView_post request pk w
    = if negb (truthy (POST request !! "title"))
         || negb (truthy (POST request !! "content"))
      then (set_render_count S w,
            Ok (Rendered request "news/edit_news.html"
                  [("error", CStr "Все поля должны быть заполнены.");
                   ("article", CBadRequest "Invalid article_type")]))
      else (w, Raise AttributeError).
Proof.
  intros Hbad. unfold ArticleDeleteView_post, ArticleEditView_post. unfold_view.
  rewrite bool_decide_eq_false_2 by done. simpl. split; [reflexivity|].
  destruct (negb (truthy (POST request !! "title"))
            || negb (truthy (POST request !! "content"))); reflexivity.
Qed.

(** C8, at a concrete request: an author posts a complete edit form for
    article 1 with [article_type=2], and an author posts a delete with
    [article_type=news].  Both requests end in an uncaught
    [AttributeError], not in a 400 response; the state is unchanged. *)
Theorem bad_article_type_raises_attribute_error :
  ArticleEditView demo_edit_bad_type 1 demo_site_cached
  = (demo_site_cached, Raise AttributeError)
  ∧ ArticleDeleteView demo_delete_bad_type 1 demo_site_cached
    = (demo_site_cached, Raise AttributeError).
Proof. split; vm_compute; reflexivity. Qed.

(** ** The theorems at concrete requests *)

Lemma detail_view_reads_through_cache_witness :
  ArticleDetailView_get demo_detail 1 demo_site = (demo_site_cached, Ok demo_page)
  ∧ ArticleDetailView_get demo_edit 1 demo_site_cached
    = (demo_site_cached, Ok demo_page).
Proof.
  split.
  - destruct (detail_view_reads_through_cache demo_detail 1 demo_article demo_site)
      as [_ Hmiss]; [vm_compute; reflexivity|].
    destruct (Hmiss (mkProfile 1) demo_alice) as [Hrun _];
      [vm_compute; reflexivity ..|].
    rewrite Hrun. vm_compute. reflexivity.
  - destruct (detail_view_reads_through_cache demo_edit 1 demo_article
                demo_site_cached) as [Hhit _]; [vm_compute; reflexivity|].
    apply Hhit. vm_compute. reflexivity.
Defined.

Lemma notification_dispatch_witness :
  send_article_notification 1 demo_article true demo_site
  = (set_celery_queue (λ _, [send_new_article_notification 1]) demo_site, Ok tt)
  ∧ send_article_notification 1 demo_article false demo_site
    = (set_outbox
         (λ _, [mkEmail (generate_notification_email 1 demo_article 2 demo_bob)
                  ["bob@example.org"] true]) demo_site, Ok tt).
Proof.
  destruct (notification_dispatch 1 demo_article demo_site) as [Hqueue Hmail].
  split.
  - destruct Hqueue as [Hrun _]. rewrite Hrun. vm_compute. reflexivity.
  - destruct (Hmail (mkCategory "sport")) as [Hrun _]; [vm_compute; reflexivity|].
    rewrite Hrun. vm_compute. reflexivity.
Defined.



Lemma edit_changes_only_title_content_date_witness :
  ∃ w',
    ArticleEditView_post demo_edit 1 demo_site_cached
    = (w', Ok (redirect "article_detail" [("id", 1%nat)]))
    ∧ news_article w' !! 1%nat
      = Some (mkArticle "Cup final, updated" "More" 1700000100000000 true 1 1 None).
Proof.
  destruct (edit_changes_only_title_content_date demo_edit 1 demo_article "1"
              "Cup final, updated" "More" demo_site_cached)
    as (w' & a' & Hrun & Hrow & Ht & Hc & Hd & Hcat & Hauth & Hty & Hrat & _);
    try (vm_compute; reflexivity); try discriminate.
  { left. split; reflexivity. }
  exists w'. split; [exact Hrun|]. rewrite Hrow. f_equal.
  destruct a'; simpl in *. by subst.
Defined.

Lemma registration_creates_inactive_basic_user_witness :
  (∃ w', @RegisterView_post demo_form demo_environment demo_register demo_site
         = (w', Ok (redirect "login" []))
         ∧ auth_user w'
           = <[3%nat := mkUser "dave" "dave@example.org" false false]>
               (auth_user demo_site)
         ∧ outbox w'
           = [mkEmail (generate_welcome_email 3
                         (mkUser "dave" "dave@example.org" false false) 1)
                ["dave@example.org"] false])
  ∧ @RegisterView_post demo_form demo_environment demo_register_taken demo_site
    = (set_render_count S demo_site,
       Ok (Rendered demo_register_taken "registration/register.html"
             [("form", CForm (Some (POST demo_register_taken)))])).
Proof.
  split.
  - destruct (@registration_creates_inactive_basic_user demo_form demo_environment
                demo_register demo_site) as [Hvalid _].
    destruct Hvalid
      as (w' & new_user & Hrun & _ & Husers & Hact & Hname & Hmail & Hsuper
          & _ & Hout & _).
    { vm_compute. reflexivity. }
    { vm_compute. reflexivity. }
    exists w'. split; [exact Hrun|].
    assert (new_user = mkUser "dave" "dave@example.org" false false) as ->.
    { destruct new_user; simpl in *. subst. vm_compute. reflexivity. }
    split; [rewrite Husers; vm_compute; reflexivity|].
    rewrite Hout. vm_compute. reflexivity.
  - destruct (@registration_creates_inactive_basic_user demo_form demo_environment
                demo_register_taken demo_site) as [_ Hinvalid].
    apply Hinvalid. vm_compute. reflexivity.
Defined.

Lemma post_limit_is_strict_for_valid_type_witness :
  check_post_limit demo_limit demo_site
  = (demo_site, Ok (redirect "/create/?article_type=news" []))
  ∧ check_post_limit demo_limit demo_site_busy
    = (set_render_count S
         (set_outbox
            (λ _, [mkEmail (generate_limit_email 1 demo_alice 3 "basic")
                     ["alice@example.org"] false]) demo_site_busy),
       Ok (Rendered demo_limit "news/post_limit_exceeded.html"
             [("error_message",
               CStr "Вы не можете публиковать более 3 постов в сутки.")]))
  ∧ check_post_limit demo_limit_other_type demo_site_busy
    = (demo_site_busy, Ok (HttpResponseBadRequest "Invalid article_type parameter")).
Proof.
  split_and!.
  - assert (is_author_or_superuser demo_site (user demo_limit) = true) as Hauth
      by (vm_compute; reflexivity).
    assert (user_profile (user demo_limit) demo_site = (demo_site, Ok 1%nat))
      as Hprofile by (vm_compute; reflexivity).
    destruct (post_limit_is_strict_for_valid_type demo_limit demo_site Hauth)
      as [Hvalid _].
    destruct (Hvalid 1%nat demo_alice 1%nat "news" eq_refl Hprofile eq_refl
                (or_introl eq_refl)) as [Hlow _].
    apply Hlow. vm_compute. lia.
  - assert (is_author_or_superuser demo_site_busy (user demo_limit) = true)
      as Hauth by (vm_compute; reflexivity).
    assert (user_profile (user demo_limit) demo_site_busy
            = (demo_site_busy, Ok 1%nat)) as Hprofile
      by (vm_compute; reflexivity).
    destruct (post_limit_is_strict_for_valid_type demo_limit demo_site_busy Hauth)
      as [Hvalid _].
    destruct (Hvalid 1%nat demo_alice 1%nat "news" eq_refl Hprofile eq_refl
                (or_introl eq_refl)) as (_ & Hhigh & _).
    rewrite Hhigh; [vm_compute; reflexivity|]. vm_compute. lia.
  - assert (is_author_or_superuser demo_site_busy (user demo_limit_other_type)
            = true) as Hauth by (vm_compute; reflexivity).
    destruct (post_limit_is_strict_for_valid_type demo_limit_other_type
                demo_site_busy Hauth) as [_ Hother].
    apply Hother. intros Hin.
    apply elem_of_cons in Hin as [Heq|Hin]; [discriminate Heq|].
    apply elem_of_cons in Hin as [Heq|Hin]; [discriminate Heq|].
    by apply elem_of_nil in Hin.
Defined.

Lemma activation_ignores_requester_witness :
  ActivateAccountView_get demo_detail 2 demo_site
  = ActivateAccountView_get demo_edit 2 demo_site
  ∧ ActivateAccountView_get demo_detail 2 demo_site
    = (set_auth_user <[2%nat := mkUser "bob" "bob@example.org" true false]> demo_site,
       Ok (redirect "login" [])).
Proof.
  destruct (activation_ignores_requester 2 demo_site) as (Hsame & _ & Heffect).
  split; [apply Hsame|].
  apply (Heffect demo_detail demo_bob). vm_compute. reflexivity.
Defined.

(** ** The statements of C4, C7 and C9 read without their preconditions *)

(** C7 as stated fails: the form is valid, but no group is named
    ['basic']; the new user is stored, [add_user_to_group] raises
    [DoesNotExist], the user is in no group, no welcome message is sent
    and there is no redirect to the login page. *)
Lemma valid_registration_fails_without_basic_group :
  @is_valid demo_form (auth_user demo_site_no_groups) (POST demo_register) = true
  ∧ snd (@RegisterView_post demo_form demo_environment demo_register
           demo_site_no_groups) = Raise DoesNotExist
  ∧ auth_user (fst (@RegisterView_post demo_form demo_environment demo_register
                      demo_site_no_groups)) !! 3%nat
    = Some (mkUser "dave" "dave@example.org" false false)
  ∧ auth_user_groups (fst (@RegisterView_post demo_form demo_environment
                             demo_register demo_site_no_groups)) = ∅
  ∧ outbox (fst (@RegisterView_post demo_form demo_environment demo_register
                   demo_site_no_groups)) = [].
Proof. split_and!; vm_compute; reflexivity. Qed.


(** C9 as stated fails: Alice is an author; without an [article_type]
    parameter she is answered 400 both below the limit (one post, no
    redirect) and at the limit (three posts, no message and no limit
    page). *)
Lemma post_limit_not_checked_without_type :
  is_author_or_superuser demo_site (user demo_limit_no_type) = true
  ∧ posts_since demo_site 1 (clock demo_site - timedelta_days 1) = 1%nat
  ∧ post_limit_of demo_site (user demo_limit_no_type) = 3%nat
  ∧ check_post_limit demo_limit_no_type demo_site
    = (demo_site, Ok (HttpResponseBadRequest "Invalid article_type parameter"))
  ∧ posts_since demo_site_busy 1 (clock demo_site_busy - timedelta_days 1) = 3%nat
  ∧ check_post_limit demo_limit_no_type demo_site_busy
    = (demo_site_busy, Ok (HttpResponseBadRequest "Invalid article_type parameter")).
Proof. split_and!; vm_compute; reflexivity. Qed.

(** * Further properties of the views *)

(** ** The cache key *)

Lemma digits_then_separator (d1 d2 : Decimal.uint) (r1 r2 : string) :
  NilEmpty.string_of_uint d1 ++ String "_" r1
  = NilEmpty.string_of_uint d2 ++ String "_" r2 →
  d1 = d2.
Proof.
  revert d2. induction d1; intros d2; destruct d2; simpl; intros H;
    try discriminate H; try reflexivity;
    injection H as H; f_equal; by apply IHd1.
Qed.

Lemma to_uint_not_Nil (n : nat) : Nat.to_uint n ≠ Decimal.Nil.
Proof.
  intros H. pose proof (Unsigned.of_to n) as Hn. rewrite H in Hn.
  simpl in Hn. subst n. discriminate H.
Qed.

Lemma str_nat_digits (n : nat) :
  str_nat n = NilEmpty.string_of_uint (Nat.to_uint n).
Proof.
  unfold str_nat, NilZero.string_of_uint.
  pose proof (to_uint_not_Nil n). by destruct (Nat.to_uint n).
Qed.

Lemma cache_key_id_inj (id1 id2 : nat) (date1 date2 : Z) :
  get_article_cache_key id1 date1 = get_article_cache_key id2 date2 →
  id1 = id2.
Proof.
  unfold get_article_cache_key. rewrite !str_nat_digits. simpl.
  intros H. injection H as H.
  apply digits_then_separator in H. by apply Unsigned.to_uint_inj.
Qed.

(** X1. The cache keys of two different articles differ, whatever their
    publication dates: a key determines the article id. *)
Theorem cache_key_determines_article (id1 id2 : nat) (date1 date2 : Z) :
  get_article_cache_key id1 date1 = get_article_cache_key id2 date2 →
  id1 = id2.
Proof. apply cache_key_id_inj. Qed.

Lemma cache_key_determines_article_witness :
  get_article_cache_key 1 1700000000000000 = demo_key ∧ 1%nat = 1%nat.
Proof.
  assert (get_article_cache_key 1 1700000000000000
          = get_article_cache_key 1 (publication_date demo_article)) as Hkey
    by reflexivity.
  split; [vm_compute; reflexivity|].
  exact (cache_key_determines_article 1 1 1700000000000000
           (publication_date demo_article) Hkey).
Defined.

(** ** Components of the state that a view leaves alone *)

Lemma untouched_ret {A B} (c : World → B) (a : A) : untouched c (ret a).
Proof. intros w. reflexivity. Qed.

Lemma untouched_raise {A B} (c : World → B) (e : Exception) :
  untouched c (@raise A e).
Proof. intros w. reflexivity. Qed.

Lemma untouched_gets {A B} (c : World → B) (f : World → A) : untouched c (gets f).
Proof. intros w. reflexivity. Qed.

Lemma untouched_modify {B} (c : World → B) (f : World → World) :
  (∀ w, c (f w) = c w) → untouched c (modify f).
Proof. intros Hf w. apply Hf. Qed.

Lemma untouched_bind {A B C} (c : World → C) (m : View A) (k : A → View B) :
  untouched c m → (∀ a, untouched c (k a)) → untouched c (bind m k).
Proof.
  intros Hm Hk w. unfold bind. specialize (Hm w).
  destruct (m w) as [w1 [a|e]]; simpl in *; [|done].
  by rewrite Hk.
Qed.

Lemma untouched_for_each {A C} (c : World → C) (xs : list A) (body : A → View unit) :
  (∀ x, untouched c (body x)) → untouched c (for_each xs body).
Proof.
  intros Hbody. induction xs as [|x xs IH]; simpl.
  - apply untouched_ret.
  - apply untouched_bind; [apply Hbody | intros _; exact IH].
Qed.

Lemma untouched_dispatch {C} (c : World → C) (request : HttpRequest)
  (get post : option (View HttpResponse)) :
  from_option (untouched c) True get → from_option (untouched c) True post →
  untouched c (dispatch request get post).
Proof.
  intros Hget Hpost. unfold dispatch.
  destruct (method request), get, post; simpl in *; try done;
    apply untouched_ret.
Qed.

Ltac untouched_step :=
  first
    [ apply untouched_ret | apply untouched_raise | apply untouched_gets
    | apply untouched_dispatch; simpl from_option; [try exact I | try exact I]
    | apply untouched_modify; intros ?; reflexivity
    | apply untouched_for_each; intros ?
    | apply untouched_bind; [|intros ?]
    | match goal with
      | |- untouched _ (match ?x with _ => _ end) => destruct x
      | |- untouched _ (if ?x then _ else _) => destruct x
      end ].

Ltac untouched_auto :=
  unfold login_required, user_passes_test, dispatch_if_allowed,
    handle_no_permission, get_article_from_cache, set_article_to_cache,
    clear_article_cache, send_article_notification, get_article,
    get_category_by_id, get_object_or_404_by_param, get_object_or_404, related,
    attr, user_profile, add_user_to_group, remove_user_from_group, render,
    timezone_now, cache_get, cache_set, cache_delete, send_custom_email, delay;
  cbv zeta;
  repeat untouched_step.

Lemma detail_leaves_articles (request : HttpRequest) (id : nat) :
  untouched news_article (ArticleDetailView request id).
Proof. unfold ArticleDetailView, ArticleDetailView_get. untouched_auto. Qed.

Lemma subscribe_leaves_articles (request : HttpRequest) (cid : nat) :
  untouched news_article (subscribe_to_category request cid).
Proof. unfold subscribe_to_category, subscribe_to_category_body. untouched_auto. Qed.

Lemma check_post_limit_leaves_articles (request : HttpRequest) :
  untouched news_article (check_post_limit request).
Proof. unfold check_post_limit, check_post_limit_body. untouched_auto. Qed.

Lemma register_leaves_articles `{CustomUserCreationForm} `{Environment}
  (request : HttpRequest) : untouched news_article (RegisterView request).
Proof. unfold RegisterView, RegisterView_get, RegisterView_post. untouched_auto. Qed.

Lemma activate_leaves_articles (request : HttpRequest) (user_id : nat) :
  untouched news_article (ActivateAccountView request user_id).
Proof. unfold ActivateAccountView, ActivateAccountView_get. untouched_auto. Qed.

Lemma check_post_limit_leaves_cache (request : HttpRequest) :
  untouched cache (check_post_limit request).
Proof. unfold check_post_limit, check_post_limit_body. untouched_auto. Qed.

Lemma register_leaves_cache `{CustomUserCreationForm} `{Environment}
  (request : HttpRequest) : untouched cache (RegisterView request).
Proof. unfold RegisterView, RegisterView_get, RegisterView_post. untouched_auto. Qed.

Lemma activate_leaves_cache (request : HttpRequest) (user_id : nat) :
  untouched cache (ActivateAccountView request user_id).
Proof. unfold ActivateAccountView, ActivateAccountView_get. untouched_auto. Qed.

Lemma create_leaves_cache (request : HttpRequest) :
  untouched cache (ArticleCreateView request).
Proof.
  unfold ArticleCreateView, ArticleCreateView_get, ArticleCreateView_post.
  untouched_auto.
Qed.

(** ** What each handler can do to the state *)

Lemma user_profile_state (u : RequestUser) (w : World) :
  fst (user_profile u w) = w.
Proof.
  unfold user_profile. destruct u as [|pk row]; [reflexivity|].
  unfold bind, gets, ret, raise.
  by destruct (List.find _ _).
Qed.

Lemma gate_cases (request : HttpRequest) (handler : View HttpResponse) (w : World) :
  (is_authenticated (user request) = true ∧ test_func w request = true
   ∧ dispatch_if_allowed request handler w = handler w)
  ∨ (user request = AnonymousUser
     ∧ dispatch_if_allowed request handler w
       = (w, Ok (RedirectToLogin (path request) LOGIN_URL)))
  ∨ (is_authenticated (user request) = true ∧ test_func w request = false
     ∧ dispatch_if_allowed request handler w = (w, Raise PermissionDenied)).
Proof.
  unfold dispatch_if_allowed, handle_no_permission, bind, gets, ret, raise.
  destruct (user request) as [|pk u] eqn:Hu; simpl.
  - right. left. done.
  - destruct (test_func w request); simpl.
    + left. done.
    + right. right. done.
Qed.

Lemma dispatch_cases (request : HttpRequest) (get post : View HttpResponse)
  (w : World) :
  (method request = HttpGet ∧ dispatch request (Some get) (Some post) w = get w)
  ∨ (method request = HttpPost
     ∧ dispatch request (Some get) (Some post) w = post w)
  ∨ (method request = HttpOther
     ∧ dispatch request (Some get) (Some post) w = (w, Ok HttpResponseNotAllowed)).
Proof. unfold dispatch. destruct (method request); simpl; auto. Qed.

Lemma detail_get_cases (request : HttpRequest) (id : nat) (w : World) :
  fst (ArticleDetailView_get request id w) = w
  ∨ ∃ a flag,
      news_article w !! id = Some a
      ∧ fst (ArticleDetailView_get request id w)
        = set_cache
            <[get_article_cache_key id (publication_date a) :=
                (Rendered request "news/article_detail.html"
                   [("article", CArticle id a); ("user_is_author", CBool flag)],
                 clock w + timedelta_seconds 300)]>
            (set_render_count S w).
Proof.
  unfold ArticleDetailView_get. unfold_view.
  destruct (news_article w !! id) as [a|] eqn:Ha; simpl; [|by left].
  destruct (cached_at w _); simpl; [by left|].
  destruct (news_profile w !! author_profile a) as [p|]; simpl; [|by left].
  destruct (auth_user w !! profile_user p); simpl; [|by left].
  right. eauto.
Qed.

Lemma create_post_cases (request : HttpRequest) (w : World) :
  fst (ArticleCreateView_post request w) = w
  ∨ fst (ArticleCreateView_post request w) = set_render_count S w
  ∨ ∃ article,
      fst (ArticleCreateView_post request w)
      = set_celery_queue
          (λ q, (q ++ [send_new_article_notification (next_pk (news_article w))])%list)
          (set_news_article <[next_pk (news_article w) := article]> w).
Proof.
  unfold ArticleCreateView_post.
  destruct (negb (truthy (POST request !! "title"))
            || negb (truthy (POST request !! "content"))
            || negb (truthy (POST request !! "category"))); [by right; left|].
  unfold_view. simpl.
  destruct (parse_pk (default "" (POST request !! "category"))) as [cid|];
    simpl;
    [|by destruct (python_int (default "" (POST request !! "category"))); left].
  destruct (news_category w !! cid) as [c|]; simpl; [|by left].
  pose proof (user_profile_state (user request) w) as Hstate.
  destruct (user_profile (user request) w) as [w1 [profile|e]]; simpl in *;
    subst w1; [|by left].
  right. right.
  exists (mkArticle (default "" (POST request !! "title"))
            (default "" (POST request !! "content")) (clock w)
            (bool_decide (GET request !! "article_type" = Some "news"))
            cid profile None).
  reflexivity.
Qed.

Lemma edit_post_cases (request : HttpRequest) (pk : nat) (w : World) :
  fst (ArticleEditView_post request pk w) = w
  ∨ fst (ArticleEditView_post request pk w) = set_render_count S w
  ∨ ∃ a a',
      news_article w !! pk = Some a
      ∧ category a' = category a ∧ author_profile a' = author_profile a
      ∧ fst (ArticleEditView_post request pk w)
        = set_news_article <[pk := a']>
            (set_cache (delete (get_article_cache_key pk (publication_date a))) w).
Proof.
  unfold ArticleEditView_post. unfold_view.
  destruct (bool_decide (GET request !! "article_type" ∈ [Some "0"; Some "1"]));
    simpl.
  - destruct (news_article w !! pk) as [a|] eqn:Ha; simpl; [|by left].
    destruct (eqb (article_type a) _); simpl; [|by left].
    destruct (negb (truthy (POST request !! "title"))
              || negb (truthy (POST request !! "content"))); simpl.
    + by right; left.
    + right. right. exists a. eexists. split_and!; [done| | |reflexivity]; done.
  - destruct (negb (truthy (POST request !! "title"))
              || negb (truthy (POST request !! "content"))); simpl.
    + by right; left.
    + by left.
Qed.

Lemma delete_post_cases (request : HttpRequest) (pk : nat) (w : World) :
  fst (ArticleDeleteView_post request pk w) = w
  ∨ ∃ a,
      news_article w !! pk = Some a
      ∧ ArticleDeleteView_post request pk w
        = (set_news_article (delete pk)
             (set_cache (delete (get_article_cache_key pk (publication_date a))) w),
           Ok (redirect "article_list" [])).
Proof.
  unfold ArticleDeleteView_post. unfold_view.
  destruct (bool_decide (GET request !! "article_type" ∈ [Some "0"; Some "1"]));
    simpl; [|by left].
  destruct (news_article w !! pk) as [a|] eqn:Ha; simpl; [|by left].
  destruct (eqb (article_type a) _); simpl; [|by left].
  right. by exists a.
Qed.

Lemma subscribe_cases (request : HttpRequest) (cid : nat) (w : World) :
  fst (subscribe_to_category request cid w) = w
  ∨ ∃ uid u c aid a,
      user request = LoggedIn uid u ∧ news_article w !! aid = Some a
      ∧ fst (subscribe_to_category request cid w) = subscribed w cid uid u c aid a.
Proof.
  unfold subscribe_to_category, subscribe_to_category_body. unfold_view.
  destruct (user request) as [|uid u] eqn:Hu; simpl; [by left|].
  destruct (news_category w !! cid) as [c|]; simpl; [|by left].
  destruct (POST request !! "article_id") as [s|]; simpl; [|by left].
  destruct (parse_pk s) as [aid|]; simpl;
    [|by destruct (python_int s); left].
  destruct (news_article w !! aid) as [a|] eqn:Ha; simpl; [|by left].
  destruct (bool_decide (uid ∈ (fst <$> subscribers_all w cid))); simpl;
    [by left|].
  right. exists uid, u, c, aid, a. done.
Qed.

Lemma create_get_renders_only (request : HttpRequest) :
  renders_only (ArticleCreateView_get request).
Proof.
  intros w. unfold ArticleCreateView_get. unfold_view.
  destruct (negb _); simpl; auto.
Qed.

Lemma edit_get_renders_only (request : HttpRequest) (pk : nat) :
  renders_only (ArticleEditView_get request pk).
Proof.
  intros w. unfold ArticleEditView_get. unfold_view.
  destruct (bool_decide _); simpl; [|by left].
  destruct (news_article w !! pk) as [a|]; simpl; [|by left].
  destruct (eqb _ _); simpl; auto.
Qed.

Lemma delete_get_renders_only (request : HttpRequest) (pk : nat) :
  renders_only (ArticleDeleteView_get request pk).
Proof.
  intros w. unfold ArticleDeleteView_get. unfold_view.
  destruct (bool_decide _); simpl; [|by left].
  destruct (news_article w !! pk) as [a|]; simpl; [|by left].
  destruct (eqb _ _); simpl; auto.
Qed.

Lemma register_get_renders_only (request : HttpRequest) :
  renders_only (RegisterView_get request).
Proof. intros w. right. reflexivity. Qed.

(** Behind the access checks and the method dispatch, a property of the
    state that both handlers keep is kept. *)
Lemma gated_preserves (I : World → Prop) (request : HttpRequest)
  (get post : View HttpResponse) (w : World) :
  (I w → I (fst (get w))) → (I w → I (fst (post w))) → I w →
  I (fst (dispatch_if_allowed request
            (dispatch request (Some get) (Some post)) w)).
Proof.
  intros Hget Hpost Hw.
  destruct (gate_cases request (dispatch request (Some get) (Some post)) w)
    as [(_ & _ & ->)|[(_ & ->)|(_ & _ & ->)]]; try exact Hw.
  destruct (dispatch_cases request get post w)
    as [(_ & ->)|[(_ & ->)|(_ & ->)]]; auto.
Qed.

(** ** Coherence of the cache with the article table *)

Lemma coherent_frame (w w' : World) :
  cache w' = cache w → news_article w' = news_article w →
  cache_coherent w → cache_coherent w'.
Proof.
  intros Hc Ha Hw key response expiry Hk. rewrite Hc in Hk. rewrite Ha.
  by apply Hw in Hk.
Qed.

Lemma coherent_store (w w' : World) (request : HttpRequest) (id : nat)
  (a : Article) (flag : bool) (expiry : Z) :
  cache w'
  = <[get_article_cache_key id (publication_date a) :=
        (Rendered request "news/article_detail.html"
           [("article", CArticle id a); ("user_is_author", CBool flag)], expiry)]>
      (cache w) →
  news_article w' = news_article w → news_article w !! id = Some a →
  cache_coherent w → cache_coherent w'.
Proof.
  intros Hc Ha Hrow Hw key response e Hk. rewrite Hc in Hk. rewrite Ha.
  destruct (decide (get_article_cache_key id (publication_date a) = key))
    as [<-|Hne].
  - rewrite lookup_insert_eq in Hk. injection Hk as <- <-.
    by exists request, id, a, flag.
  - rewrite lookup_insert_ne in Hk by done. by apply Hw in Hk.
Qed.

Lemma coherent_drop (w w' : World) (k : string) :
  cache w' = delete k (cache w) → news_article w' = news_article w →
  cache_coherent w → cache_coherent w'.
Proof.
  intros Hc Ha Hw key response e Hk. rewrite Hc in Hk. rewrite Ha.
  apply lookup_delete_Some in Hk as [_ Hk]. by apply Hw in Hk.
Qed.

Lemma coherent_create (w w' : World) (pk : nat) (a : Article) :
  cache w' = cache w → news_article w' = <[pk := a]> (news_article w) →
  news_article w !! pk = None →
  cache_coherent w → cache_coherent w'.
Proof.
  intros Hc Ha Hfresh Hw key response e Hk. rewrite Hc in Hk.
  apply Hw in Hk as (request & id & a0 & flag & -> & -> & Hrow).
  exists request, id, a0, flag. split_and!; try done.
  rewrite Ha, lookup_insert_ne; [done|]. intros ->. congruence.
Qed.

Lemma coherent_replace (w w' : World) (pk : nat) (a a' : Article) :
  cache w' = delete (get_article_cache_key pk (publication_date a)) (cache w) →
  news_article w' = <[pk := a']> (news_article w) →
  news_article w !! pk = Some a →
  cache_coherent w → cache_coherent w'.
Proof.
  intros Hc Ha Hold Hw key response e Hk. rewrite Hc in Hk.
  apply lookup_delete_Some in Hk as [Hne Hk].
  apply Hw in Hk as (request & id & a0 & flag & -> & -> & Hrow).
  exists request, id, a0, flag. split_and!; try done.
  rewrite Ha, lookup_insert_ne; [done|]. intros ->.
  rewrite Hold in Hrow. injection Hrow as ->. done.
Qed.

Lemma coherent_remove (w w' : World) (pk : nat) (a : Article) :
  cache w' = delete (get_article_cache_key pk (publication_date a)) (cache w) →
  news_article w' = delete pk (news_article w) →
  news_article w !! pk = Some a →
  cache_coherent w → cache_coherent w'.
Proof.
  intros Hc Ha Hold Hw key response e Hk. rewrite Hc in Hk.
  apply lookup_delete_Some in Hk as [Hne Hk].
  apply Hw in Hk as (request & id & a0 & flag & -> & -> & Hrow).
  exists request, id, a0, flag. split_and!; try done.
  rewrite Ha, lookup_delete_ne; [done|]. intros ->.
  rewrite Hold in Hrow. injection Hrow as ->. done.
Qed.

Lemma coherent_renders_only {A} (m : View A) (w : World) :
  renders_only m → cache_coherent w → cache_coherent (fst (m w)).
Proof.
  intros Hm Hw. destruct (Hm w) as [->| ->]; [done|].
  by apply (coherent_frame w).
Qed.

Lemma coherent_untouched {A} (m : View A) (w : World) :
  untouched cache m → untouched news_article m →
  cache_coherent w → cache_coherent (fst (m w)).
Proof. intros Hc Ha. apply coherent_frame; [apply Hc | apply Ha]. Qed.

Lemma routes_keep_cache_coherent `{CustomUserCreationForm} `{Environment}
  (route : Route) (request : HttpRequest) (w : World) :
  cache_coherent w → cache_coherent (fst (urlpatterns route request w)).
Proof.
  intros Hw. destruct route as [id| |pk|pk|cid| | |user_id]; simpl.
  - unfold ArticleDetailView, dispatch.
    destruct (method request); simpl; try exact Hw.
    destruct (detail_get_cases request id w) as [->|(a & flag & Ha & ->)];
      [exact Hw|].
    by eapply (coherent_store w _ request id a flag).
  - unfold ArticleCreateView. apply gated_preserves; [| |exact Hw].
    + apply coherent_renders_only, create_get_renders_only.
    + intros _.
      destruct (create_post_cases request w) as [->|[->|[article ->]]];
        [exact Hw|by apply (coherent_frame w)|].
      eapply (coherent_create w); [reflexivity|reflexivity| |exact Hw].
      apply next_pk_fresh.
  - unfold ArticleEditView. apply gated_preserves; [| |exact Hw].
    + apply coherent_renders_only, edit_get_renders_only.
    + intros _.
      destruct (edit_post_cases request pk w)
        as [->|[->|(a & a' & Ha & _ & _ & ->)]];
        [exact Hw|by apply (coherent_frame w)|].
      by eapply (coherent_replace w _ pk a a').
  - unfold ArticleDeleteView. apply gated_preserves; [| |exact Hw].
    + apply coherent_renders_only, delete_get_renders_only.
    + intros _.
      destruct (delete_post_cases request pk w) as [->|(a & Ha & ->)];
        [exact Hw|].
      by eapply (coherent_remove w _ pk a).
  - destruct (subscribe_cases request cid w)
      as [->|(uid & u & c & aid & a & _ & Ha & ->)]; [exact Hw|].
    by eapply (coherent_drop w).
  - apply coherent_untouched; [|  |exact Hw].
    + apply check_post_limit_leaves_cache.
    + apply check_post_limit_leaves_articles.
  - apply coherent_untouched; [| |exact Hw].
    + apply register_leaves_cache.
    + apply register_leaves_articles.
  - apply coherent_untouched; [| |exact Hw].
    + apply activate_leaves_cache.
    + apply activate_leaves_articles.
Qed.

Lemma reachable_coherent `{CustomUserCreationForm} `{Environment}
  (start w : World) :
  cache_coherent start → reachable start w → cache_coherent w.
Proof.
  intros Hstart Hreach. induction Hreach as [|w route request _ IH|w t _ IH].
  - exact Hstart.
  - by apply routes_keep_cache_coherent.
  - by apply (coherent_frame w).
Qed.

Lemma empty_cache_coherent (w : World) : cache w = ∅ → cache_coherent w.
Proof. intros Hc key response e Hk. rewrite Hc in Hk. done. Qed.

(** X2. Whatever requests are made to the routes, starting with an empty
    cache, every cached response is a detail page that is stored under
    the key of the article it shows, and it shows that article exactly as
    the article table holds it. *)
Theorem cached_pages_show_stored_articles `{CustomUserCreationForm} `{Environment}
  (start w : World) :
  cache start = ∅ → reachable start w → cache_coherent w.
Proof.
  intros Hempty Hreach. apply (reachable_coherent start); [|done].
  by apply empty_cache_coherent.
Qed.

(** X3. In such a state, a detail request that is answered from the cache
    returns a page that shows the stored article itself, its current
    title and content included; the state is unchanged. *)
Theorem cache_hit_is_never_stale `{CustomUserCreationForm} `{Environment}
  (start w : World) (request : HttpRequest) (id : nat) (a : Article)
  (response : HttpResponse) :
  cache start = ∅ → reachable start w →
  news_article w !! id = Some a →
  cached_at w (get_article_cache_key id (publication_date a)) = Some response →
  ArticleDetailView_get request id w = (w, Ok response)
  ∧ ∃ first_request flag,
      response = Rendered first_request "news/article_detail.html"
                   [("article", CArticle id a); ("user_is_author", CBool flag)].
Proof.
  intros Hempty Hreach Ha Hhit. split.
  - unfold ArticleDetailView_get. unfold_view. rewrite Ha. simpl.
    rewrite Hhit. reflexivity.
  - pose proof (reachable_coherent start w (empty_cache_coherent _ Hempty) Hreach)
      as Hw.
    unfold cached_at in Hhit.
    destruct (cache w !! get_article_cache_key id (publication_date a))
      as [[r e]|] eqn:Hk; [|discriminate].
    destruct (clock w <=? e); [|discriminate]. injection Hhit as ->.
    apply Hw in Hk as (first & id' & a' & flag & -> & Hkey & Hrow).
    apply cache_key_id_inj in Hkey as Hid. subst id'.
    rewrite Ha in Hrow. injection Hrow as <-. eauto.
Qed.

(** ** The cached detail page over time and across requesters *)

Lemma detail_miss (request : HttpRequest) (id : nat) (a : Article) (p : Profile)
  (u : User) (w : World) :
  news_article w !! id = Some a →
  cached_at w (get_article_cache_key id (publication_date a)) = None →
  news_profile w !! author_profile a = Some p →
  auth_user w !! profile_user p = Some u →
  let response :=
    Rendered request "news/article_detail.html"
      [("article", CArticle id a);
       ("user_is_author",
        CBool match user request with
              | LoggedIn pk _ => Nat.eqb pk (profile_user p)
              | AnonymousUser => false
              end)] in
  ArticleDetailView_get request id w
  = (set_cache <[get_article_cache_key id (publication_date a) :=
                   (response, clock w + timedelta_seconds 300)]>
       (set_render_count S w), Ok response).
Proof.
  intros Ha Hc Hp Hu response. unfold ArticleDetailView_get. unfold_view.
  rewrite Ha. simpl. rewrite Hc. simpl. rewrite Hp. simpl. rewrite Hu.
  reflexivity.
Qed.

Lemma detail_hit (request : HttpRequest) (id : nat) (a : Article)
  (response : HttpResponse) (w : World) :
  news_article w !! id = Some a →
  cached_at w (get_article_cache_key id (publication_date a)) = Some response →
  ArticleDetailView_get request id w = (w, Ok response).
Proof.
  intros Ha Hc. unfold ArticleDetailView_get. unfold_view.
  rewrite Ha. simpl. rewrite Hc. reflexivity.
Qed.

(** X4. The detail page cached for one requester is served to every
    requester: after a request that rendered the page, any request for
    the same article made within 300 seconds, by whatever user, gets the
    response rendered for the first requester, with the first requester's
    [user_is_author] flag, and nothing is rendered or stored again. *)
Theorem cached_page_is_shared_between_users
  (first other : HttpRequest) (id : nat) (a : Article) (p : Profile) (u : User)
  (w : World) (t : Z) :
  news_article w !! id = Some a →
  cached_at w (get_article_cache_key id (publication_date a)) = None →
  news_profile w !! author_profile a = Some p →
  auth_user w !! profile_user p = Some u →
  clock w ≤ t ≤ clock w + timedelta_seconds 300 →
  let served := ArticleDetailView_get first id w in
  let later := at_time t (fst served) in
  ArticleDetailView_get other id later = (later, snd served)
  ∧ snd served
    = Ok (Rendered first "news/article_detail.html"
            [("article", CArticle id a);
             ("user_is_author",
              CBool match user first with
                    | LoggedIn pk _ => Nat.eqb pk (profile_user p)
                    | AnonymousUser => false
                    end)]).
Proof.
  intros Ha Hc Hp Hu Ht served later. unfold later, served.
  rewrite (detail_miss first id a p u w Ha Hc Hp Hu). simpl. split; [|done].
  apply (detail_hit other id a); [exact Ha|].
  unfold cached_at. simpl. rewrite lookup_insert_eq.
  destruct (Z.leb_spec t (clock w + timedelta_seconds 300)); [done|lia].
Qed.

(** X5. Once more than 300 seconds have passed since the page was stored
    it is no longer served: the next request renders the page for its own
    requester and stores it anew, with a fresh expiry. *)
Theorem cached_page_expires_after_timeout
  (first other : HttpRequest) (id : nat) (a : Article) (p : Profile) (u : User)
  (w : World) (t : Z) :
  news_article w !! id = Some a →
  cached_at w (get_article_cache_key id (publication_date a)) = None →
  news_profile w !! author_profile a = Some p →
  auth_user w !! profile_user p = Some u →
  clock w + timedelta_seconds 300 < t →
  let later := at_time t (fst (ArticleDetailView_get first id w)) in
  let response :=
    Rendered other "news/article_detail.html"
      [("article", CArticle id a);
       ("user_is_author",
        CBool match user other with
              | LoggedIn pk _ => Nat.eqb pk (profile_user p)
              | AnonymousUser => false
              end)] in
  ArticleDetailView_get other id later
  = (set_cache <[get_article_cache_key id (publication_date a) :=
                   (response, t + timedelta_seconds 300)]>
       (set_render_count S later), Ok response).
Proof.
  intros Ha Hc Hp Hu Ht later response. unfold later.
  rewrite (detail_miss first id a p u w Ha Hc Hp Hu). simpl.
  apply (detail_miss other id a p u); try done.
  unfold cached_at. simpl. rewrite lookup_insert_eq.
  destruct (Z.leb_spec t (clock w + timedelta_seconds 300)); [lia|done].
Qed.

(** ** Deleting and the type parameter *)

Lemma get_article_found (pk : nat) (a : Article) (ty : string) (w : World) :
  (ty = "1" ∧ article_type a = true) ∨ (ty = "0" ∧ article_type a = false) →
  news_article w !! pk = Some a →
  get_article pk (Some ty) w = (w, Ok (an_article pk a)).
Proof.
  intros Hmatch Ha. unfold get_article. unfold_view.
  destruct Hmatch as [[-> Hb]|[-> Hb]]; simpl; rewrite Ha; simpl; rewrite Hb;
    reflexivity.
Qed.

Lemma get_article_not_found (pk : nat) (ty : string) (w : World) :
  ty = "0" ∨ ty = "1" →
  (∀ a, news_article w !! pk = Some a → article_type a ≠ bool_decide (ty = "1")) →
  get_article pk (Some ty) w = (w, Raise Http404).
Proof.
  intros Hty Hno. unfold get_article. unfold_view.
  assert (bool_decide (Some ty ∈ [Some "0"; Some "1"]) = true) as ->.
  { apply bool_decide_eq_true_2. destruct Hty as [-> | ->]; set_solver. }
  simpl. destruct (news_article w !! pk) as [a|] eqn:Ha; simpl; [|done].
  specialize (Hno a eq_refl).
  assert (bool_decide (Some ty = Some "1") = bool_decide (ty = "1")) as ->.
  { apply bool_decide_ext. split; congruence. }
  destruct (article_type a), (bool_decide (ty = "1")); simpl; congruence.
Qed.

(** X6. A POST to the delete handler for an existing article of matching
    type removes exactly that row and the cache entry under its key,
    leaves every other article and every other table alone, and
    redirects to the article list; afterwards the detail view of that id
    raises [Http404] for every requester. *)
Theorem delete_removes_article_and_page
  (request : HttpRequest) (pk : nat) (a : Article) (ty : string) (w : World) :
  GET request !! "article_type" = Some ty →
  (ty = "1" ∧ article_type a = true) ∨ (ty = "0" ∧ article_type a = false) →
  news_article w !! pk = Some a →
  let w' :=
    set_news_article (delete pk)
      (set_cache (delete (get_article_cache_key pk (publication_date a))) w) in
  ArticleDeleteView_post request pk w = (w', Ok (redirect "article_list" []))
  ∧ news_article w' !! pk = None
  ∧ (∀ k, k ≠ pk → news_article w' !! k = news_article w !! k)
  ∧ cache w' !! get_article_cache_key pk (publication_date a) = None
  ∧ (∀ other, ArticleDetailView_get other pk w' = (w', Raise Http404)).
Proof.
  intros Hty Hmatch Ha w'. split_and!.
  - unfold ArticleDeleteView_post. rewrite Hty. unfold bind at 1.
    rewrite (get_article_found pk a ty w Hmatch Ha). reflexivity.
  - simpl. apply lookup_delete_eq.
  - intros k Hk. simpl. by apply lookup_delete_ne.
  - simpl. apply lookup_delete_eq.
  - intros other. unfold ArticleDetailView_get. unfold_view. simpl.
    rewrite lookup_delete_eq. reflexivity.
Qed.

(** X7. With a valid [article_type] that is not the type of the stored
    article, or with the id of no article, the edit and delete handlers,
    GET and POST alike, raise [Http404] and change nothing: an article
    can only be reached under its own type. *)
Theorem wrong_type_or_missing_article_is_404
  (request : HttpRequest) (pk : nat) (ty : string) (w : World) :
  GET request !! "article_type" = Some ty → ty = "0" ∨ ty = "1" →
  (∀ a, news_article w !! pk = Some a → article_type a ≠ bool_decide (ty = "1")) →
  ArticleEditView_get request pk w = (w, Raise Http404)
  ∧ ArticleEditView_post request pk w = (w, Raise Http404)
  ∧ ArticleDeleteView_get request pk w = (w, Raise Http404)
  ∧ ArticleDeleteView_post request pk w = (w, Raise Http404).
Proof.
  intros Hty Hvalid Hno.
  pose proof (get_article_not_found pk ty w Hvalid Hno) as Hget.
  unfold ArticleEditView_get, ArticleEditView_post, ArticleDeleteView_get,
    ArticleDeleteView_post.
  rewrite Hty. unfold bind. rewrite Hget. done.
Qed.

(** ** Who may change articles *)

(** X8. The create, edit and delete views answer an anonymous request
    with the redirect to the login page and raise [PermissionDenied] for
    a logged-in user who is neither superuser nor member of ['authors'];
    in both cases nothing is changed, whatever the method, the
    parameters and the posted data. *)
Theorem article_views_reject_non_authors (request : HttpRequest) (pk : nat)
  (w : World) :
  (user request = AnonymousUser →
   let answer := (w, Ok (RedirectToLogin (path request) LOGIN_URL)) in
   ArticleCreateView request w = answer
   ∧ ArticleEditView request pk w = answer
   ∧ ArticleDeleteView request pk w = answer)
  ∧ (is_authenticated (user request) = true → test_func w request = false →
     let answer := (w, Raise PermissionDenied) in
     ArticleCreateView request w = answer
     ∧ ArticleEditView request pk w = answer
     ∧ ArticleDeleteView request pk w = answer).
Proof.
  split.
  - intros Hanon answer.
    unfold ArticleCreateView, ArticleEditView, ArticleDeleteView,
      dispatch_if_allowed, handle_no_permission.
    rewrite Hanon. done.
  - intros Hauth Htest answer.
    unfold ArticleCreateView, ArticleEditView, ArticleDeleteView,
      dispatch_if_allowed, handle_no_permission, bind, gets, raise.
    rewrite Hauth. simpl. rewrite Htest. done.
Qed.

Lemma gated_changes_articles (request : HttpRequest)
  (get post : View HttpResponse) (w : World) :
  renders_only get →
  news_article (fst (dispatch_if_allowed request
                       (dispatch request (Some get) (Some post)) w))
  ≠ news_article w →
  test_func w request = true ∧ method request = HttpPost.
Proof.
  intros Hget Hne.
  destruct (gate_cases request (dispatch request (Some get) (Some post)) w)
    as [(_ & Htest & Heq)|[(_ & Heq)|(_ & _ & Heq)]];
    rewrite Heq in Hne; try done.
  destruct (dispatch_cases request get post w)
    as [(_ & Heq')|[(Hpost & _)|(_ & Heq')]]; try rewrite Heq' in Hne;
    try done.
  destruct (Hget w) as [Hw|Hw]; rewrite Hw in Hne; done.
Qed.

(** X9. Through the routes, the article table is changed only by a POST
    to the create, edit or delete view made by a user who passes
    [test_func], a superuser or a member of ['authors']; no other request
    adds, alters or removes an article. *)
Theorem only_authors_change_articles `{CustomUserCreationForm} `{Environment}
  (route : Route) (request : HttpRequest) (w : World) :
  news_article (fst (urlpatterns route request w)) ≠ news_article w →
  test_func w request = true ∧ method request = HttpPost
  ∧ (route = create_post ∨ (∃ pk, route = edit_post pk)
     ∨ (∃ pk, route = delete_post pk)).
Proof.
  destruct route as [id| |pk|pk|cid| | |user_id]; simpl; intros Hne.
  - by rewrite detail_leaves_articles in Hne.
  - apply gated_changes_articles in Hne as [? ?];
      [|apply create_get_renders_only]. auto.
  - apply gated_changes_articles in Hne as [? ?];
      [|apply edit_get_renders_only]. eauto 6.
  - apply gated_changes_articles in Hne as [? ?];
      [|apply delete_get_renders_only]. eauto 6.
  - by rewrite subscribe_leaves_articles in Hne.
  - by rewrite check_post_limit_leaves_articles in Hne.
  - by rewrite register_leaves_articles in Hne.
  - by rewrite activate_leaves_articles in Hne.
Qed.

(** X10. The function views are gated too: an anonymous request to
    [subscribe_to_category] is sent to the login page, and a request to
    [check_post_limit] by a user who is neither author nor superuser is
    sent to the ['permission_denied'] page; neither changes anything, no
    subscription is recorded and no message is sent. *)
Theorem function_views_turn_away_strangers (request : HttpRequest) (cid : nat)
  (w : World) :
  (user request = AnonymousUser →
   subscribe_to_category request cid w
   = (w, Ok (RedirectToLogin (path request) LOGIN_URL)))
  ∧ (is_author_or_superuser w (user request) = false →
     check_post_limit request w
     = (w, Ok (RedirectToLogin (path request) "permission_denied"))).
Proof.
  split.
  - intros Hanon. unfold subscribe_to_category, login_required.
    rewrite Hanon. reflexivity.
  - intros Htest. unfold check_post_limit, user_passes_test, bind, gets.
    rewrite Htest. reflexivity.
Qed.

(** ** Posts counted against the daily limit *)

Lemma filter_length_Permutation {A} (f : A → bool) (l l' : list A) :
  l ≡ₚ l' → length (List.filter f l) = length (List.filter f l').
Proof.
  induction 1 as [|x l l' _ IH|x y l|l l' l'' _ IH1 _ IH2]; simpl.
  - reflexivity.
  - destruct (f x); simpl; by rewrite IH.
  - destruct (f x), (f y); reflexivity.
  - by rewrite IH1.
Qed.


Lemma posts_since_overwrite (w w' : World) (pk : nat) (a a' : Article)
  (profile : nat) (threshold : Z) :
  news_article w' = <[pk := a']> (news_article w) →
  news_article w !! pk = Some a →
  (posts_since w' profile threshold
   + (if Nat.eqb (author_profile a) profile
         && (threshold <=? publication_date a)%Z
      then 1 else 0)
   = posts_since w profile threshold
     + (if Nat.eqb (author_profile a') profile
           && (threshold <=? publication_date a')%Z
        then 1 else 0))%nat.
Proof.
  intros Hw' Hold. unfold posts_since. rewrite Hw'.
  rewrite <- insert_delete_eq.
  rewrite (filter_length_Permutation _ _ _
             (map_to_list_insert (delete pk (news_article w)) pk a'
                (lookup_delete_eq _ _))).
  rewrite <- (filter_length_Permutation _ _ _
                (map_to_list_delete (news_article w) pk a Hold)).
  simpl. destruct (_ && _), (_ && _); simpl; lia.
Qed.



Lemma edit_post_ok (request : HttpRequest) (pk : nat) (a : Article)
  (ty t c : string) (w : World) :
  GET request !! "article_type" = Some ty →
  (ty = "1" ∧ article_type a = true) ∨ (ty = "0" ∧ article_type a = false) →
  news_article w !! pk = Some a →
  POST request !! "title" = Some t → t ≠ "" →
  POST request !! "content" = Some c → c ≠ "" →
  ArticleEditView_post request pk w
  = (set_news_article
       <[pk := mkArticle t c (clock w) (article_type a) (category a)
                 (author_profile a) (rating a)]>
       (set_cache (delete (get_article_cache_key pk (publication_date a))) w),
     Ok (redirect "article_detail" [("id", pk)])).
Proof.
  intros Hty Hmatch Ha Ht Htne Hc Hcne.
  unfold ArticleEditView_post. rewrite Hty. unfold bind at 1.
  rewrite (get_article_found pk a ty w Hmatch Ha).
  rewrite Ht, Hc. rewrite !truthy_Some by done. reflexivity.
Qed.

(** X12. Editing resets the publication date, so an edit of an article
    that was published more than 24 hours ago makes it count as a post of
    the last 24 hours: the count that [check_post_limit] uses for its
    author goes up by one. *)
Theorem edit_of_old_article_counts_as_new_post
  (request : HttpRequest) (pk : nat) (a : Article) (ty t c : string) (w : World) :
  GET request !! "article_type" = Some ty →
  (ty = "1" ∧ article_type a = true) ∨ (ty = "0" ∧ article_type a = false) →
  news_article w !! pk = Some a →
  POST request !! "title" = Some t → t ≠ "" →
  POST request !! "content" = Some c → c ≠ "" →
  publication_date a < clock w - timedelta_days 1 →
  let w' := fst (ArticleEditView_post request pk w) in
  posts_since w' (author_profile a) (clock w' - timedelta_days 1)
  = S (posts_since w (author_profile a) (clock w - timedelta_days 1)).
Proof.
  intros Hty Hmatch Ha Ht Htne Hc Hcne Hold w'. unfold w'.
  rewrite (edit_post_ok request pk a ty t c w) by done. simpl fst.
  pose proof (posts_since_overwrite w
                (set_news_article
                   <[pk := mkArticle t c (clock w) (article_type a) (category a)
                             (author_profile a) (rating a)]>
                   (set_cache
                      (delete (get_article_cache_key pk (publication_date a))) w))
                pk a _ (author_profile a) (clock w - timedelta_days 1)
                eq_refl Ha) as Hcount.
  simpl in Hcount. rewrite Nat.eqb_refl in Hcount. simpl in Hcount.
  destruct (Z.leb_spec (clock w - timedelta_days 1) (publication_date a));
    [lia|].
  destruct (Z.leb_spec (clock w - timedelta_days 1) (clock w)) as [|Hlt].
  - simpl in *. lia.
  - unfold timedelta_days, seconds_per_day, microseconds_per_second in Hlt. lia.
Qed.

(** ** Registration, activation and the profile form *)

(** X13. Registration is not atomic: when the form is valid but no group
    named ['basic'] exists, the new inactive user has already been stored
    when [add_user_to_group] raises [DoesNotExist]; the user is in no
    group and no welcome message is sent. *)
Theorem registration_without_basic_group_keeps_user
  `{CustomUserCreationForm} `{Environment} (request : HttpRequest) (w : World) :
  is_valid (auth_user w) (POST request) = true → "basic" ∉ auth_group w →
  let unsaved := save_commit_false (POST request) in
  let pk := next_pk (auth_user w) in
  let new_user := mkUser (username unsaved) (email unsaved) false
                    (is_superuser unsaved) in
  let w' := set_auth_user <[pk := new_user]> w in
  RegisterView_post request w = (w', Raise DoesNotExist)
  ∧ auth_user w !! pk = None ∧ auth_user w' !! pk = Some new_user
  ∧ auth_user_groups w' = auth_user_groups w ∧ outbox w' = outbox w.
Proof.
  intros Hvalid Hgroup unsaved pk new_user w'. split_and!; try reflexivity.
  - unfold RegisterView_post. unfold_view. rewrite Hvalid. simpl.
    rewrite bool_decide_eq_false_2 by done. reflexivity.
  - apply next_pk_fresh.
  - simpl. apply lookup_insert_eq.
Qed.

Lemma register_post_ok `{CustomUserCreationForm} `{Environment}
  (request : HttpRequest) (w : World) :
  is_valid (auth_user w) (POST request) = true → "basic" ∈ auth_group w →
  let unsaved := save_commit_false (POST request) in
  let pk := next_pk (auth_user w) in
  let new_user := mkUser (username unsaved) (email unsaved) false
                    (is_superuser unsaved) in
  RegisterView_post request w
  = (set_outbox
       (λ sent, (sent ++ [mkEmail (generate_welcome_email pk new_user
                                     WELCOME_EMAIL_VARIANT)
                            [email new_user] false])%list)
       (set_auth_user_groups (λ rel, {[ (pk, "basic") ]} ∪ rel)
          (set_auth_user <[pk := new_user]> w)),
     Ok (redirect "login" [])).
Proof.
  intros Hvalid Hgroup unsaved pk new_user.
  unfold RegisterView_post. unfold_view. rewrite Hvalid. simpl.
  rewrite bool_decide_eq_true_2 by done. reflexivity.
Qed.

(** X14. Registration followed by a request to the activation link of the
    new user's id, made by anyone, leaves that user stored with the name
    and email of the form and [is_active] true; a second request to the
    link changes nothing more. *)
Theorem registered_user_is_activated_by_link
  `{CustomUserCreationForm} `{Environment}
  (request visit again : HttpRequest) (w : World) :
  is_valid (auth_user w) (POST request) = true → "basic" ∈ auth_group w →
  let unsaved := save_commit_false (POST request) in
  let pk := next_pk (auth_user w) in
  let registered := fst (RegisterView_post request w) in
  let activated := fst (ActivateAccountView_get visit pk registered) in
  snd (ActivateAccountView_get visit pk registered) = Ok (redirect "login" [])
  ∧ auth_user activated !! pk
    = Some (mkUser (username unsaved) (email unsaved) true (is_superuser unsaved))
  ∧ (∀ k, k ≠ pk → auth_user activated !! k = auth_user w !! k)
  ∧ ActivateAccountView_get again pk activated
    = (activated, Ok (redirect "login" [])).
Proof.
  intros Hvalid Hgroup unsaved pk registered activated.
  unfold activated, registered.
  rewrite (register_post_ok request w Hvalid Hgroup). simpl fst.
  unfold ActivateAccountView_get. unfold_view. simpl.
  rewrite !lookup_insert_eq. simpl. rewrite !lookup_insert_eq. simpl.
  split_and!; try reflexivity.
  - intros k Hk. rewrite !lookup_insert_ne by done. reflexivity.
  - unfold set_auth_user. simpl. rewrite !insert_insert_eq. reflexivity.
Qed.

(** X15. A GET to the create, edit or delete view or to the registration
    view never writes: the tables, the cache, the outbox and the queue
    are as before, and at most one page is rendered. *)
Theorem get_requests_to_forms_only_render
  `{CustomUserCreationForm} `{Environment}
  (route : Route) (request : HttpRequest) (w : World) :
  method request = HttpGet →
  route = create_post ∨ (∃ pk, route = edit_post pk)
  ∨ (∃ pk, route = delete_post pk) ∨ route = register →
  fst (urlpatterns route request w) = w
  ∨ fst (urlpatterns route request w) = set_render_count S w.
Proof.
  intros Hget [->|[[pk ->]|[[pk ->]| ->]]]; simpl.
  - unfold ArticleCreateView.
    destruct (gate_cases request
                (dispatch request (Some (ArticleCreateView_get request))
                   (Some (ArticleCreateView_post request))) w)
      as [(_ & _ & ->)|[(_ & ->)|(_ & _ & ->)]]; auto.
    unfold dispatch. rewrite Hget. apply create_get_renders_only.
  - unfold ArticleEditView.
    destruct (gate_cases request
                (dispatch request (Some (ArticleEditView_get request pk))
                   (Some (ArticleEditView_post request pk))) w)
      as [(_ & _ & ->)|[(_ & ->)|(_ & _ & ->)]]; auto.
    unfold dispatch. rewrite Hget. apply edit_get_renders_only.
  - unfold ArticleDeleteView.
    destruct (gate_cases request
                (dispatch request (Some (ArticleDeleteView_get request pk))
                   (Some (ArticleDeleteView_post request pk))) w)
      as [(_ & _ & ->)|[(_ & ->)|(_ & _ & ->)]]; auto.
    unfold dispatch. rewrite Hget. apply delete_get_renders_only.
  - unfold RegisterView, dispatch. rewrite Hget.
    apply register_get_renders_only.
Qed.

Lemma add_user_to_group_ok (pk : nat) (group : string) (w : World) :
  group ∈ auth_group w →
  add_user_to_group pk group w
  = (set_auth_user_groups (λ rel, {[ (pk, group) ]} ∪ rel) w, Ok tt).
Proof.
  intros Hgroup. unfold add_user_to_group, bind, gets, modify.
  rewrite bool_decide_eq_true_2 by done. reflexivity.
Qed.

Lemma remove_user_from_group_ok (pk : nat) (group : string) (w : World) :
  group ∈ auth_group w →
  remove_user_from_group pk group w
  = (set_auth_user_groups (λ rel, rel ∖ {[ (pk, group) ]}) w, Ok tt).
Proof.
  intros Hgroup. unfold remove_user_from_group, bind, gets, modify.
  rewrite bool_decide_eq_true_2 by done. reflexivity.
Qed.

Lemma profile_post_ok `{CustomUserChangeForm} (request : HttpRequest) (pk : nat)
  (u : User) (w : World) :
  change_is_valid (auth_user w) pk (POST request) = true →
  "premium" ∈ auth_group w → "authors" ∈ auth_group w →
  let toggle (flag group : string) (rel : gset (nat * string)) :=
    if String.eqb (default "False" (POST request !! flag)) "True"
    then {[ (pk, group) ]} ∪ rel else rel ∖ {[ (pk, group) ]} in
  ProfileView_post request pk u w
  = (set_auth_user_groups (toggle "is_author" "authors")
       (set_auth_user_groups (toggle "account_type" "premium")
          (set_auth_user <[pk := change_save u (POST request)]> w)),
     Ok (redirect "profile" [])).
Proof.
  intros Hvalid Hpremium Hauthors toggle.
  unfold ProfileView_post, bind, gets, modify, ret. rewrite Hvalid.
  cbv zeta. unfold toggle.
  set (w1 := set_auth_user <[pk := change_save u (POST request)]> w).
  destruct (String.eqb (default "False" (POST request !! "account_type")) "True").
  - rewrite (add_user_to_group_ok pk "premium" w1 Hpremium).
    destruct (String.eqb (default "False" (POST request !! "is_author")) "True").
    + by rewrite add_user_to_group_ok by exact Hauthors.
    + by rewrite remove_user_from_group_ok by exact Hauthors.
  - rewrite (remove_user_from_group_ok pk "premium" w1 Hpremium).
    destruct (String.eqb (default "False" (POST request !! "is_author")) "True").
    + by rewrite add_user_to_group_ok by exact Hauthors.
    + by rewrite remove_user_from_group_ok by exact Hauthors.
Qed.

Lemma flag_is_True (v : option string) :
  String.eqb (default "False" v) "True" = true ↔ v = Some "True".
Proof.
  destruct v as [s|]; simpl.
  - rewrite String.eqb_eq. split; congruence.
  - split; discriminate.
Qed.

(** X16. A valid profile form sets the group memberships of the posting
    user from the posted flags alone: afterwards the user is in
    ['premium'] exactly when [account_type] was posted as ['True'] and in
    ['authors'] exactly when [is_author] was posted as ['True'] (a flag
    left out removes the membership); no other membership changes, and
    the answer redirects to the profile page. *)
Theorem profile_form_sets_memberships `{CustomUserChangeForm}
  (request : HttpRequest) (pk : nat) (u : User) (w : World) :
  change_is_valid (auth_user w) pk (POST request) = true →
  "premium" ∈ auth_group w → "authors" ∈ auth_group w →
  let w' := fst (ProfileView_post request pk u w) in
  snd (ProfileView_post request pk u w) = Ok (redirect "profile" [])
  ∧ auth_user w' = <[pk := change_save u (POST request)]> (auth_user w)
  ∧ ((pk, "premium") ∈ auth_user_groups w'
     ↔ POST request !! "account_type" = Some "True")
  ∧ ((pk, "authors") ∈ auth_user_groups w'
     ↔ POST request !! "is_author" = Some "True")
  ∧ (∀ uid g, (uid, g) ≠ (pk, "premium") → (uid, g) ≠ (pk, "authors") →
       (uid, g) ∈ auth_user_groups w' ↔ (uid, g) ∈ auth_user_groups w).
Proof.
  intros Hvalid Hpremium Hauthors w'. unfold w'.
  rewrite (profile_post_ok request pk u w Hvalid Hpremium Hauthors).
  simpl. split_and!; try reflexivity.
  - rewrite <- flag_is_True.
    destruct (String.eqb (default "False" (POST request !! "account_type")) "True"),
      (String.eqb (default "False" (POST request !! "is_author")) "True");
      set_unfold; intuition congruence.
  - rewrite <- flag_is_True.
    destruct (String.eqb (default "False" (POST request !! "account_type")) "True"),
      (String.eqb (default "False" (POST request !! "is_author")) "True");
      set_unfold; intuition congruence.
  - intros uid g Hp Ha.
    destruct (String.eqb (default "False" (POST request !! "account_type")) "True"),
      (String.eqb (default "False" (POST request !! "is_author")) "True");
      set_unfold; intuition congruence.
Qed.


(** ** What the routes never do *)

Ltac unfold_routes :=
  unfold ArticleDetailView, ArticleDetailView_get, ArticleCreateView,
    ArticleCreateView_get, ArticleCreateView_post, ArticleEditView,
    ArticleEditView_get, ArticleEditView_post, ArticleDeleteView,
    ArticleDeleteView_get, ArticleDeleteView_post, subscribe_to_category,
    subscribe_to_category_body, check_post_limit, check_post_limit_body,
    RegisterView, RegisterView_get, RegisterView_post, ActivateAccountView,
    ActivateAccountView_get.

Lemma routes_leave_categories `{CustomUserCreationForm} `{Environment}
  (route : Route) (request : HttpRequest) :
  untouched news_category (urlpatterns route request).
Proof. destruct route; simpl; unfold_routes; untouched_auto. Qed.

Lemma routes_leave_profiles `{CustomUserCreationForm} `{Environment}
  (route : Route) (request : HttpRequest) :
  untouched news_profile (urlpatterns route request).
Proof. destruct route; simpl; unfold_routes; untouched_auto. Qed.

Lemma routes_leave_groups `{CustomUserCreationForm} `{Environment}
  (route : Route) (request : HttpRequest) :
  untouched auth_group (urlpatterns route request).
Proof. destruct route; simpl; unfold_routes; untouched_auto. Qed.

Lemma routes_leave_subscribers `{CustomUserCreationForm} `{Environment}
  (route : Route) (request : HttpRequest) :
  (∀ cid, route ≠ subscribe cid) →
  untouched news_category_subscribers (urlpatterns route request).
Proof.
  intros Hroute. destruct route; simpl; try (by unfold_routes; untouched_auto).
  exfalso. by apply (Hroute category_id).
Qed.

Lemma routes_leave_users `{CustomUserCreationForm} `{Environment}
  (route : Route) (request : HttpRequest) :
  route ≠ register → (∀ uid, route ≠ activate_account uid) →
  untouched auth_user (urlpatterns route request).
Proof.
  intros Hreg Hact. destruct route; simpl;
    try (by unfold_routes; untouched_auto).
  exfalso. by apply (Hact user_id).
Qed.

Lemma account_kept_same (w w' : World) :
  auth_user w' = auth_user w → account_kept w w'.
Proof. intros Heq uid u Hu. exists u. by rewrite Heq. Qed.

Lemma register_keeps_accounts `{CustomUserCreationForm} `{Environment}
  (request : HttpRequest) (w : World) :
  account_kept w (fst (RegisterView request w)).
Proof.
  unfold RegisterView, dispatch.
  destruct (method request); simpl; try by apply account_kept_same.
  unfold RegisterView_post. unfold_view.
  destruct (is_valid (auth_user w) (POST request)); simpl;
    [|by apply account_kept_same].
  assert (account_kept w
            (set_auth_user
               <[next_pk (auth_user w) :=
                   mkUser (username (save_commit_false (POST request)))
                     (email (save_commit_false (POST request))) false
                     (is_superuser (save_commit_false (POST request)))]> w))
    as Hkept.
  { intros uid u Hu. exists u. split_and!; try done. simpl.
    rewrite lookup_insert_ne; [done|]. intros <-.
    by rewrite next_pk_fresh in Hu. }
  destruct (bool_decide ("basic" ∈ auth_group w)); simpl; exact Hkept.
Qed.

Lemma activate_keeps_accounts (request : HttpRequest) (user_id : nat) (w : World) :
  account_kept w (fst (ActivateAccountView request user_id w)).
Proof.
  unfold ActivateAccountView, dispatch.
  destruct (method request); simpl; try by apply account_kept_same.
  unfold ActivateAccountView_get. unfold_view.
  destruct (auth_user w !! user_id) as [u0|] eqn:Hu0; simpl;
    [|by apply account_kept_same].
  intros uid u Hu. simpl. destruct (decide (uid = user_id)) as [->|Hne].
  - rewrite lookup_insert_eq. eexists. split; [reflexivity|].
    rewrite Hu0 in Hu. injection Hu as <-. done.
  - rewrite lookup_insert_ne by done. exists u. done.
Qed.

(** X18. The routes only ever add: no request removes a subscription,
    deletes, renames or deactivates a user account, or changes the
    categories, the profiles or the set of groups. *)
Theorem routes_never_unsubscribe_or_drop_accounts
  `{CustomUserCreationForm} `{Environment}
  (route : Route) (request : HttpRequest) (w : World) :
  let w' := fst (urlpatterns route request w) in
  news_category_subscribers w ⊆ news_category_subscribers w'
  ∧ account_kept w w'
  ∧ news_category w' = news_category w
  ∧ news_profile w' = news_profile w
  ∧ auth_group w' = auth_group w.
Proof.
  intros w'. unfold w'. split_and!.
  - destruct route as [id| |pk|pk|cid| | |user_id];
      try (by rewrite routes_leave_subscribers).
    simpl. destruct (subscribe_cases request cid w)
      as [->|(uid & u & c & aid & a & _ & _ & ->)]; [done|].
    simpl. apply union_subseteq_r.
  - destruct route as [id| |pk|pk|cid| | |user_id];
      try (apply account_kept_same; by apply routes_leave_users).
    + apply register_keeps_accounts.
    + apply activate_keeps_accounts.
  - apply routes_leave_categories.
  - apply routes_leave_profiles.
  - apply routes_leave_groups.
Qed.

(** ** The further properties at concrete requests *)

Lemma cached_pages_show_stored_articles_witness :
  cache_coherent
    (fst (@urlpatterns demo_form demo_environment (article_detail 1) demo_detail
            demo_site)).
Proof.
  apply (@cached_pages_show_stored_articles demo_form demo_environment demo_site).
  - reflexivity.
  - apply reach_request. apply reach_start.
Defined.

Lemma cache_hit_is_never_stale_witness :
  ArticleDetailView_get demo_edit 1 demo_site_cached
  = (demo_site_cached, Ok demo_page)
  ∧ ∃ first_request flag,
      demo_page = Rendered first_request "news/article_detail.html"
                    [("article", CArticle 1 demo_article);
                     ("user_is_author", CBool flag)].
Proof.
  assert (@reachable demo_form demo_environment demo_site demo_site_cached)
    as Hreach.
  { assert (demo_site_cached
            = fst (@urlpatterns demo_form demo_environment (article_detail 1)
                     demo_detail demo_site)) as ->
      by (vm_compute; reflexivity).
    apply reach_request. apply reach_start. }
  apply (@cache_hit_is_never_stale demo_form demo_environment demo_site
           demo_site_cached demo_edit 1 demo_article demo_page).
  - reflexivity.
  - exact Hreach.
  - vm_compute. reflexivity.
  - vm_compute. reflexivity.
Defined.

Lemma cached_page_is_shared_between_users_witness :
  let served := ArticleDetailView_get demo_edit 1 demo_site in
  let later := at_time 1700000200000000 (fst served) in
  ArticleDetailView_get demo_detail 1 later = (later, snd served)
  ∧ snd served
    = Ok (Rendered demo_edit "news/article_detail.html"
            [("article", CArticle 1 demo_article); ("user_is_author", CBool true)]).
Proof.
  assert (news_article demo_site !! 1%nat = Some demo_article) as Ha
    by (vm_compute; reflexivity).
  assert (cached_at demo_site
            (get_article_cache_key 1 (publication_date demo_article)) = None)
    as Hc by (vm_compute; reflexivity).
  assert (news_profile demo_site !! author_profile demo_article
          = Some (mkProfile 1)) as Hp by (vm_compute; reflexivity).
  assert (auth_user demo_site !! profile_user (mkProfile 1) = Some demo_alice)
    as Hu by (vm_compute; reflexivity).
  assert (clock demo_site ≤ 1700000200000000
          ≤ clock demo_site + timedelta_seconds 300) as Ht
    by (vm_compute; split; discriminate).
  exact (cached_page_is_shared_between_users demo_edit demo_detail 1 demo_article
           (mkProfile 1) demo_alice demo_site 1700000200000000 Ha Hc Hp Hu Ht).
Defined.

Lemma cached_page_expires_after_timeout_witness :
  let later := at_time 1700000401000000
                 (fst (ArticleDetailView_get demo_edit 1 demo_site)) in
  let response :=
    Rendered demo_detail "news/article_detail.html"
      [("article", CArticle 1 demo_article); ("user_is_author", CBool false)] in
  ArticleDetailView_get demo_detail 1 later
  = (set_cache <[demo_key := (response, 1700000701000000)]>
       (set_render_count S later), Ok response).
Proof.
  assert (news_article demo_site !! 1%nat = Some demo_article) as Ha
    by (vm_compute; reflexivity).
  assert (cached_at demo_site
            (get_article_cache_key 1 (publication_date demo_article)) = None)
    as Hc by (vm_compute; reflexivity).
  assert (news_profile demo_site !! author_profile demo_article
          = Some (mkProfile 1)) as Hp by (vm_compute; reflexivity).
  assert (auth_user demo_site !! profile_user (mkProfile 1) = Some demo_alice)
    as Hu by (vm_compute; reflexivity).
  assert (clock demo_site + timedelta_seconds 300 < 1700000401000000) as Ht
    by (vm_compute; reflexivity).
  pose proof (cached_page_expires_after_timeout demo_edit demo_detail 1
                demo_article (mkProfile 1) demo_alice demo_site 1700000401000000
                Ha Hc Hp Hu Ht) as Hrun.
  cbv zeta in *. rewrite Hrun. vm_compute. reflexivity.
Defined.

Lemma delete_removes_article_and_page_witness :
  ∃ w', ArticleDeleteView_post demo_delete 1 demo_site_cached
        = (w', Ok (redirect "article_list" []))
        ∧ news_article w' !! 1%nat = None ∧ cache w' !! demo_key = None
        ∧ ArticleDetailView_get demo_detail 1 w' = (w', Raise Http404).
Proof.
  assert (news_article demo_site_cached !! 1%nat = Some demo_article) as Ha
    by (vm_compute; reflexivity).
  destruct (delete_removes_article_and_page demo_delete 1 demo_article "1"
              demo_site_cached eq_refl (or_introl (conj eq_refl eq_refl)) Ha)
    as (Hrun & Hgone & _ & Hkey & H404).
  eexists. split; [exact Hrun|]. split; [exact Hgone|].
  split; [exact Hkey|]. apply H404.
Defined.

Lemma wrong_type_or_missing_article_is_404_witness :
  ArticleEditView_post demo_edit_wrong_type 1 demo_site
  = (demo_site, Raise Http404)
  ∧ ArticleDeleteView_post demo_edit_wrong_type 1 demo_site
    = (demo_site, Raise Http404).
Proof.
  assert (∀ a, news_article demo_site !! 1%nat = Some a →
               article_type a ≠ bool_decide ("0" = "1")) as Hno.
  { intros a Ha.
    assert (news_article demo_site !! 1%nat = Some demo_article) as Hdemo
      by (vm_compute; reflexivity).
    rewrite Hdemo in Ha. injection Ha as <-. discriminate. }
  destruct (wrong_type_or_missing_article_is_404 demo_edit_wrong_type 1 "0"
              demo_site eq_refl (or_introl eq_refl) Hno)
    as (_ & Hedit & _ & Hdelete).
  split; [exact Hedit | exact Hdelete].
Defined.

Lemma article_views_reject_non_authors_witness :
  ArticleEditView demo_anonymous_edit 1 demo_site
  = (demo_site, Ok (RedirectToLogin "/edit/1/?article_type=1" "/login/"))
  ∧ ArticleEditView demo_reader_edit 1 demo_site
    = (demo_site, Raise PermissionDenied)
  ∧ ArticleCreateView demo_reader_create demo_site
    = (demo_site, Raise PermissionDenied).
Proof.
  destruct (article_views_reject_non_authors demo_anonymous_edit 1 demo_site)
    as [Hanon _].
  destruct (article_views_reject_non_authors demo_reader_edit 1 demo_site)
    as [_ Hreader].
  destruct (article_views_reject_non_authors demo_reader_create 1 demo_site)
    as [_ Hcreate].
  split_and!.
  - apply (Hanon eq_refl).
  - apply Hreader; vm_compute; reflexivity.
  - apply Hcreate; vm_compute; reflexivity.
Defined.

Lemma only_authors_change_articles_witness :
  test_func demo_site demo_edit = true ∧ method demo_edit = HttpPost
  ∧ (edit_post 1 = create_post ∨ (∃ pk, edit_post 1 = edit_post pk)
     ∨ (∃ pk, edit_post 1 = delete_post pk)).
Proof.
  apply (@only_authors_change_articles demo_form demo_environment (edit_post 1)
           demo_edit demo_site).
  intros Heq. apply (f_equal (λ rows, title <$> rows !! 1%nat)) in Heq.
  vm_compute in Heq. discriminate Heq.
Defined.

Lemma function_views_turn_away_strangers_witness :
  subscribe_to_category demo_anonymous_subscribe 1 demo_site
  = (demo_site, Ok (RedirectToLogin "/subscribe/1/" "/login/"))
  ∧ check_post_limit demo_reader_limit demo_site
    = (demo_site,
       Ok (RedirectToLogin "/check_post_limit/?article_type=news"
             "permission_denied")).
Proof.
  split.
  - destruct (function_views_turn_away_strangers demo_anonymous_subscribe 1
                demo_site) as [Hanon _].
    apply (Hanon eq_refl).
  - destruct (function_views_turn_away_strangers demo_reader_limit 1 demo_site)
      as [_ Hreader].
    apply Hreader. vm_compute. reflexivity.
Defined.


Lemma edit_of_old_article_counts_as_new_post_witness :
  let later := at_time 1700200000000000 demo_site in
  posts_since later 1 (clock later - timedelta_days 1) = 0%nat
  ∧ posts_since (fst (ArticleEditView_post demo_edit 1 later)) 1
      (clock later - timedelta_days 1) = 1%nat.
Proof.
  intros later.
  assert (news_article later !! 1%nat = Some demo_article) as Ha
    by (vm_compute; reflexivity).
  assert (publication_date demo_article < clock later - timedelta_days 1)
    as Hold by (vm_compute; reflexivity).
  pose proof (edit_of_old_article_counts_as_new_post demo_edit 1 demo_article
                "1" "Cup final, updated" "More" later eq_refl
                (or_introl (conj eq_refl eq_refl)) Ha eq_refl
                ltac:(discriminate) eq_refl ltac:(discriminate) Hold) as Hcount.
  split; [vm_compute; reflexivity|].
  vm_compute. reflexivity.
Defined.

Lemma registration_without_basic_group_keeps_user_witness :
  @RegisterView_post demo_form demo_environment demo_register demo_site_no_groups
  = (set_auth_user <[3%nat := mkUser "dave" "dave@example.org" false false]>
       demo_site_no_groups, Raise DoesNotExist).
Proof.
  destruct (@registration_without_basic_group_keeps_user demo_form
              demo_environment demo_register demo_site_no_groups)
    as [Hrun _].
  - vm_compute. reflexivity.
  - unfold demo_site_no_groups. simpl. apply not_elem_of_empty.
  - rewrite Hrun. vm_compute. reflexivity.
Defined.

Lemma registered_user_is_activated_by_link_witness :
  let registered :=
    fst (@RegisterView_post demo_form demo_environment demo_register demo_site) in
  let activated := fst (ActivateAccountView_get demo_detail 3 registered) in
  auth_user activated !! 3%nat
  = Some (mkUser "dave" "dave@example.org" true false)
  ∧ ActivateAccountView_get demo_edit 3 activated
    = (activated, Ok (redirect "login" [])).
Proof.
  assert (@is_valid demo_form (auth_user demo_site) (POST demo_register) = true)
    as Hvalid by (vm_compute; reflexivity).
  assert ("basic" ∈ auth_group demo_site) as Hgroup.
  { unfold demo_site. simpl. apply elem_of_union. left. apply elem_of_union.
    right. by apply elem_of_singleton. }
  destruct (@registered_user_is_activated_by_link demo_form demo_environment
              demo_register demo_detail demo_edit demo_site Hvalid Hgroup)
    as (_ & Hrow & _ & Hagain).
  split; [exact Hrow | exact Hagain].
Defined.

Lemma get_requests_to_forms_only_render_witness :
  fst (@urlpatterns demo_form demo_environment create_post demo_create_form
         demo_site) = demo_site
  ∨ fst (@urlpatterns demo_form demo_environment create_post demo_create_form
           demo_site) = set_render_count S demo_site.
Proof.
  apply (@get_requests_to_forms_only_render demo_form demo_environment).
  - reflexivity.
  - left. reflexivity.
Defined.

Lemma profile_form_sets_memberships_witness :
  let w' := fst (@ProfileView_post demo_change_form demo_profile_post 2 demo_bob
                   demo_site) in
  (2%nat, "authors") ∈ auth_user_groups w'
  ∧ ¬ (2%nat, "premium") ∈ auth_user_groups w'.
Proof.
  assert (@change_is_valid demo_change_form (auth_user demo_site) 2
            (POST demo_profile_post) = true) as Hvalid
    by (vm_compute; reflexivity).
  assert ("premium" ∈ auth_group demo_site) as Hpremium.
  { unfold demo_site. simpl. apply elem_of_union. right.
    by apply elem_of_singleton. }
  assert ("authors" ∈ auth_group demo_site) as Hauthors.
  { unfold demo_site. simpl. apply elem_of_union. left. apply elem_of_union.
    left. by apply elem_of_singleton. }
  destruct (@profile_form_sets_memberships demo_change_form demo_profile_post 2
              demo_bob demo_site Hvalid Hpremium Hauthors)
    as (_ & _ & Hprem & Hauth & _).
  split.
  - apply Hauth. vm_compute. reflexivity.
  - intros Hin. apply Hprem in Hin. vm_compute in Hin. discriminate Hin.
Defined.

